(** * Verification of [server/scripts/refresh_questrade_token.py]

    A shallow embedding of the token refresh helper: the token store and
    its accessors, the redirect-following refresh driver, the external
    helper driver and the command-line front end, followed by the
    properties of the specification that concern them.

    Conventions of the model:
    - Python strings are [string]s whose characters stand for code points
      below 256; dictionaries with string keys are [gmap string _].
    - Values read from JSON documents are the scalars of [pyval]; floats
      and nested containers as field values are outside the model.
    - Effects are explicit: a function that touches the file system, the
      network, the helper process or the clock takes a [world] and returns
      the next one, and every such effect is appended to [trace].
    - A call of [session.get], [urljoin] or [subprocess.run] either
      returns or raises; which of the two, and what it returns or raises,
      is the environment's choice.
    - A write of the store file completes and replaces the file's content;
      a write that fails part-way is outside the model, and the properties
      below that speak of the file after a write say so.
    - [print] only writes to standard output and never influences control
      flow; it is not modelled. *)

From Stdlib Require Import ZArith String Ascii List Bool Lia DecimalString.
From stdpp Require Import base option list gmap strings fin_maps.

Local Open Scope string_scope.
Local Open Scope Z_scope.
Local Open Scope list_scope.

(** ** Python values and strings *)

Inductive pyval :=
| PNone
| PBool (b : bool)
| PInt (z : Z)
| PStr (s : string).

(** [bool(v)] *)
Definition truthy (v : pyval) : bool :=
  match v with
  | PNone => false
  | PBool b => b
  | PInt z => negb (z =? 0)
  | PStr s => negb (String.eqb s EmptyString)
  end.

(** [str(v)] *)
Definition py_str (v : pyval) : string :=
  match v with
  | PNone => "None"
  | PBool true => "True"
  | PBool false => "False"
  | PInt z => NilZero.string_of_int (Z.to_int z)
  | PStr s => s
  end.

(** [a == b]: booleans compare as the integers 1 and 0. *)
Definition py_eq (a b : pyval) : bool :=
  match a, b with
  | PNone, PNone => true
  | PStr s, PStr t => String.eqb s t
  | PBool x, PBool y => Bool.eqb x y
  | PInt x, PInt y => x =? y
  | PBool x, PInt y => (if x then 1 else 0) =? y
  | PInt x, PBool y => x =? (if y then 1 else 0)
  | _, _ => false
  end.

(** [bool(s)] for a string, and for an optional string ([None] is falsy). *)
Definition nonempty (s : string) : bool := negb (String.eqb s EmptyString).

Definition opt_truthy (o : option string) : bool :=
  match o with
  | Some s => nonempty s
  | None => false
  end.

(** [str.isspace] on one character. *)
Definition is_space (c : ascii) : bool :=
  let n := N_of_ascii c in
  ((9 <=? n) && (n <=? 13) || (28 <=? n) && (n <=? 32)
   || (n =? 133) || (n =? 160))%N.

Fixpoint lstrip (s : string) : string :=
  match s with
  | EmptyString => EmptyString
  | String c s' => if is_space c then lstrip s' else s
  end.

Fixpoint rstrip (s : string) : string :=
  match s with
  | EmptyString => EmptyString
  | String c s' =>
      match rstrip s' with
      | EmptyString => if is_space c then EmptyString else String c EmptyString
      | r => String c r
      end
  end.

(** [s.strip()] *)
Definition strip (s : string) : string := rstrip (lstrip s).

Definition lower_char (c : ascii) : ascii :=
  let n := N_of_ascii c in
  if ((65 <=? n) && (n <=? 90)
      || (192 <=? n) && (n <=? 222) && negb (n =? 215))%N
  then ascii_of_N (n + 32) else c.

(** [s.lower()] *)
Fixpoint lower (s : string) : string :=
  match s with
  | EmptyString => EmptyString
  | String c s' => String (lower_char c) (lower s')
  end.

(** [":" in s] *)
Fixpoint has_colon (s : string) : bool :=
  match s with
  | EmptyString => false
  | String c s' => Ascii.eqb c ":" || has_colon s'
  end.

(** [s.split(":", 1)] unpacked into two parts: the text before the first
    colon and the text after it.  Without a colon the unpacking fails. *)
Fixpoint split_colon (s : string) : option (string * string) :=
  match s with
  | EmptyString => None
  | String c s' =>
      if Ascii.eqb c ":" then Some (EmptyString, s')
      else match split_colon s' with
           | Some (k, v) => Some (String c k, v)
           | None => None
           end
  end.

(** ** Dictionaries and the token store *)

(** [d.get(k)], with Python's [None] for a missing key. *)
Definition dict_get (d : gmap string pyval) (k : string) : pyval :=
  default PNone (d !! k).

(** The document of [token-store.json]: [{ updatedAt, logins: [...] }].
    [store_logins] is [None] when the key is missing or [null]. *)
Record store := {
  store_updatedAt : option pyval;
  store_logins : option (list (gmap string pyval))
}.

(** ** HTTP messages *)

(** A GET sent by the session.  The session's cookie jar is filled from the
    answers received so far; the server of the model sees those answers in
    the trace, so the jar is not a field of the request. *)
Record request := {
  req_url : string;
  req_params : option (list (string * pyval));
  req_headers : gmap string string
}.

(** [json_body] is what [response.json()] returns, [None] when the body
    does not parse. *)
Record response := {
  status_code : Z;
  location : option string;
  set_cookie : option string;
  text : string;
  json_body : option (gmap string pyval)
}.

(** ** Outcomes *)

(** [OtherException cls] is an exception of class [cls] that comes out of a
    library call or of an attribute lookup: a [requests] exception out of
    [session.get], a [ValueError] out of [urljoin], what [subprocess.run]
    raises when the helper cannot be started, an [AttributeError]. *)
Inductive exn :=
| SystemExit (msg : string)
| RuntimeError (msg : string)
| HTTPError (r : response)
| JSONDecodeError
| OtherException (cls : string).

Inductive outcome (A : Type) :=
| Ok (a : A)
| Raise (e : exn).
Arguments Ok {A} a.
Arguments Raise {A} e.

(** ** The helper process protocol *)

Record connection_cfg := {
  keepAlive : option bool;
  connectionClose : option bool
}.

Record tls_cfg := {
  minVersion : option string;
  maxVersion : option string;
  ciphers : option string
}.

(** The [config] object after the [None] entries have been dropped: an
    absent key is [None]. *)
Record node_config := {
  cfg_method : option string;
  cfg_tracePath : option string;
  cfg_client : option string;
  cfg_connection : option connection_cfg;
  cfg_tls : option tls_cfg;
  cfg_headers : option (gmap string string)
}.

(** The JSON argument handed to the helper. *)
Record node_payload := {
  np_refreshToken : pyval;
  np_iterations : Z;
  np_config : option node_config
}.

(** The object the helper prints: its scalar fields and its [results]. *)
Record node_response := {
  nr_fields : gmap string pyval;
  nr_results : option (list (gmap string pyval))
}.

(** Standard output of the helper after [strip()] and [json.loads]:
    nothing, text that is not JSON, a JSON object, or JSON of another kind
    (a list, a number, a string, [null]), which has no [get]. *)
Inductive helper_stdout :=
| OutBlank
| OutUnparsable (raw : string)
| OutJson (r : node_response)
| OutJsonOther.

Record completed_process := {
  returncode : Z;
  stdout : helper_stdout
}.

(** ** The world *)

Inductive event :=
| EvStoreExists
| EvStoreRead
| EvStoreWrite (st : store)
| EvHttpGet (req : request) (resp : response)
| EvHttpFailed (req : request) (cls : string)
| EvHelperExists
| EvHelperRun (p : node_payload) (r : completed_process)
| EvHelperFailed (p : node_payload) (cls : string)
| EvClock (ts : string).

(** What the program does not control.  The network, the helper and the
    clock answer as functions of everything that happened before.
    [request_error] names the exception of a [session.get] that raises
    instead of returning a response, [spawn_error] that of a
    [subprocess.run] that raises instead of returning, [urljoin_error] that
    of a [urljoin] that rejects its arguments; [None] is a call that
    returns. *)
Record env := {
  request_error : list event -> request -> option string;
  respond : list event -> request -> response;
  helper_present : list event -> bool;
  spawn_error : list event -> node_payload -> option string;
  run_helper : list event -> node_payload -> completed_process;
  urljoin_error : string -> string -> option string;
  utc_now : list event -> string;
  urljoin : string -> string -> string;
  abspath_expanduser : string -> string;
  default_headers : gmap string string;
  TOKEN_STORE_PATH : string;
  script_path : string
}.

Inductive file :=
| FileMissing
| FileInvalid
| FileJson (st : store).

Record world := {
  disk : file;
  trace : list event
}.

Definition log (e : event) (w : world) : world :=
  {| disk := disk w; trace := trace w ++ [e] |}.

(** Computations that may raise and that change the world. *)
Definition M (A : Type) : Type := world -> outcome A * world.

Definition ret {A} (a : A) : M A := fun w => (Ok a, w).

Definition raise {A} (e : exn) : M A := fun w => (Raise e, w).

Definition bind {A B} (m : M A) (k : A -> M B) : M B :=
  fun w =>
    match m w with
    | (Ok a, w') => k a w'
    | (Raise e, w') => (Raise e, w')
    end.

Notation "'let*' x ':=' m 'in' k" := (bind m (fun x => k))
  (at level 10, x binder, m at level 100, k at level 200).

Definition TOKEN_URL : string := "https://login.questrade.com/oauth2/token".
Definition MAX_REDIRECTS : nat := 5.
Definition SESSION_PRESETS : list string := ["python"; "node"].
Definition DRIVERS : list string := ["requests"; "node"].

(** [key in S] for a set of strings. *)
Definition member (k : string) (S : list string) : bool :=
  existsb (String.eqb k) S.

(** ** Token store accessor *)

Definition load_token_store (E : env) : M store :=
  fun w =>
    let w1 := log EvStoreExists w in
    match disk w with
    | FileMissing =>
        (Raise (SystemExit ("token-store.json not found at " +:+ TOKEN_STORE_PATH E)), w1)
    | FileInvalid => (Raise JSONDecodeError, log EvStoreRead w1)
    | FileJson st => (Ok st, log EvStoreRead w1)
    end.

(** [persist_token_store] when the file can be written: its content
    becomes the payload. *)
Definition persist_token_store (payload : store) : M unit :=
  fun w => (Ok tt, {| disk := FileJson payload; trace := trace w ++ [EvStoreWrite payload] |}).

(** [store.get("logins") or []] *)
Definition logins_of (st : store) : list (gmap string pyval) :=
  default [] (store_logins st).

(** The [for] loop of [find_login]: the position, counted from [i], of the
    first login whose id prints as [login_id]. *)
Fixpoint find_from (logins : list (gmap string pyval)) (login_id : string) (i : nat)
  : option nat :=
  match logins with
  | [] => None
  | login :: rest =>
      if String.eqb (py_str (dict_get login "id")) login_id then Some i
      else find_from rest login_id (S i)
  end.

(** A login is returned by reference: the result is its position in the
    store's list, so that later updates through it reach the store. *)
Definition find_login (st : store) (login_id : option string) : outcome nat :=
  let logins := logins_of st in
  if opt_truthy login_id then
    let id := default EmptyString login_id in
    match find_from logins id 0 with
    | Some i => Ok i
    | None => Raise (SystemExit ("Login with id '" +:+ id +:+ "' not found in token-store.json"))
    end
  else
    match logins with
    | [] => Raise (SystemExit "token-store.json does not include any logins")
    | _ :: _ => Ok 0%nat
    end.

(** ** Primary refresh driver *)

Record session := { session_headers : gmap string string }.

(** [300 <= response.status_code < 400 and location] *)
Definition is_redirect (r : response) : bool :=
  (300 <=? status_code r) && (status_code r <? 400) && opt_truthy (location r).

(** The body of [for attempt in range(n)], with the attempts still to make
    as the structural argument.  [session.get] either raises or returns a
    response; on a redirect [urljoin] either raises or gives the next URL. *)
Fixpoint refresh_attempts (E : env) (s : session) (n : nat)
    (current_url : string) (params : option (list (string * pyval))) : M response :=
  match n with
  | O => raise (RuntimeError "Exceeded maximum redirect attempts during refresh")
  | S n' =>
      fun w =>
        let req := {| req_url := current_url; req_params := params;
                      req_headers := session_headers s |} in
        match request_error E (trace w) req with
        | Some cls => (Raise (OtherException cls), log (EvHttpFailed req cls) w)
        | None =>
            let resp := respond E (trace w) req in
            let w1 := log (EvHttpGet req resp) w in
            if is_redirect resp
            then
              let loc := default EmptyString (location resp) in
              match urljoin_error E current_url loc with
              | Some cls => (Raise (OtherException cls), w1)
              | None => refresh_attempts E s n' (urljoin E current_url loc) None w1
              end
            else (Ok resp, w1)
        end
  end.

Definition refresh_once (E : env) (s : session) (refresh_token : pyval) : M response :=
  refresh_attempts E s (MAX_REDIRECTS + 1) TOKEN_URL
    (Some [("grant_type", PStr "refresh_token"); ("refresh_token", refresh_token)]).

(** The login at position [i] is the object [login]; the store's list holds
    that same object, so assigning to its keys changes the store.  A
    position outside the list names no login and nothing happens. *)
Definition update_login_refresh_token (E : env) (st : store) (i : nat)
    (new_token : pyval) (w : world) : store * world :=
  if negb (truthy new_token) then (st, w)
  else
    match logins_of st !! i with
    | None => (st, w)
    | Some login =>
        if py_eq (dict_get login "refreshToken") new_token then (st, w)
        else
          let login1 := <["refreshToken" := new_token]> login in
          let timestamp := utc_now E (trace w) in
          let w1 := log (EvClock timestamp) w in
          let login2 := <["updatedAt" := PStr timestamp]> login1 in
          let st' := {| store_updatedAt := Some (PStr timestamp);
                        store_logins := Some (<[i := login2]> (logins_of st)) |} in
          (st', snd (persist_token_store st' w1))
    end.

(** [response.raise_for_status()] of the [requests] library: it raises for
    the client and server error classes and returns otherwise. *)
Definition raise_for_status (r : response) : M unit :=
  if (400 <=? status_code r) && (status_code r <? 600)
  then raise (HTTPError r) else ret tt.

(** [response.json()] *)
Definition response_json (r : response) : M (gmap string pyval) :=
  match json_body r with
  | Some payload => ret payload
  | None => raise JSONDecodeError
  end.

(** One pass through the body of [for index in range(iterations)]: the
    store and the token are the loop's variables. *)
Definition refresh_cycle (E : env) (s : session) (i : nat)
    (st : store) (token : pyval) : M (store * pyval) :=
  let* resp := refresh_once E s token in
  let* _ := (if negb (status_code resp =? 200) then raise_for_status resp else ret tt) in
  let* payload := response_json resp in
  if truthy (dict_get payload "refresh_token") then
    fun w =>
      let '(st', w') :=
        update_login_refresh_token E st i (dict_get payload "refresh_token") w in
      (Ok (st', dict_get payload "refresh_token"), w')
  else ret (st, token).

Fixpoint refresh_cycles (E : env) (s : session) (i : nat) (n : nat)
    (st : store) (token : pyval) : M (store * pyval) :=
  match n with
  | O => ret (st, token)
  | S n' =>
      let* '(st', token') := refresh_cycle E s i st token in
      refresh_cycles E s i n' st' token'
  end.

Definition build_session (E : env) (preset : string) : M session :=
  let preset_key := strip (lower preset) in
  if negb (member preset_key SESSION_PRESETS) then
    raise (SystemExit ("Unsupported session preset '" +:+ preset
                       +:+ "'. Expected one of: ['node', 'python']"))
  else if String.eqb preset_key "node" then
    ret {| session_headers :=
             <["Accept-Encoding" := "gzip, compress, deflate, br"]>
               (<["Connection" := "close"]>
                  (<["Accept" := "application/json, text/plain, */*"]>
                     {["User-Agent" := "python-requests/2.32.5"]})) |}
  else
    ret {| session_headers :=
             <["User-Agent" := "python-requests/2.32.5"]> (default_headers E) |}.

(** ** Alternate refresh driver *)

(** The keyword arguments shared by [perform_refreshes] and the helper
    driver. *)
Record node_options := {
  opt_trace_path : option string;
  opt_method : option string;
  opt_client : option string;
  opt_keepalive : option bool;
  opt_connection_close : bool;
  opt_tls_min : option string;
  opt_tls_max : option string;
  opt_tls_ciphers : option string;
  opt_headers : option (gmap string string)
}.

(** [x if x else absent], for the keys set under [if x:]. *)
Definition keep_truthy (o : option string) : option string :=
  if opt_truthy o then o else None.

Definition build_connection (o : node_options) : option connection_cfg :=
  let c := {| keepAlive := opt_keepalive o;
              connectionClose :=
                if opt_connection_close o then Some true else None |} in
  match keepAlive c, connectionClose c with
  | None, None => None
  | _, _ => Some c
  end.

Definition build_tls (o : node_options) : option tls_cfg :=
  let t := {| minVersion := keep_truthy (opt_tls_min o);
              maxVersion := keep_truthy (opt_tls_max o);
              ciphers := keep_truthy (opt_tls_ciphers o) |} in
  match minVersion t, maxVersion t, ciphers t with
  | None, None, None => None
  | _, _, _ => Some t
  end.

(** [if headers: config["headers"] = headers] *)
Definition build_headers (o : node_options) : option (gmap string string) :=
  match opt_headers o with
  | Some h => if decide (h = ∅) then None else Some h
  | None => None
  end.

Definition build_config (o : node_options) : node_config :=
  {| cfg_method := opt_method o;
     cfg_tracePath := opt_trace_path o;
     cfg_client := opt_client o;
     cfg_connection := build_connection o;
     cfg_tls := build_tls o;
     cfg_headers := build_headers o |}.

(** [bool(cleaned_config)] *)
Definition config_nonempty (c : node_config) : bool :=
  match cfg_method c, cfg_tracePath c, cfg_client c,
        cfg_connection c, cfg_tls c, cfg_headers c with
  | None, None, None, None, None, None => false
  | _, _, _, _, _, _ => true
  end.

Definition build_payload (token : pyval) (iterations : Z) (o : node_options)
  : node_payload :=
  let cleaned_config := build_config o in
  {| np_refreshToken := token;
     np_iterations := iterations;
     np_config := if config_nonempty cleaned_config then Some cleaned_config else None |}.

Definition node_failure_message (r : node_response) : string :=
  let status := dict_get (nr_fields r) "status" in
  let body := dict_get (nr_fields r) "body" in
  let message := dict_get (nr_fields r) "error" in
  "Node driver failed"
  +:+ (if truthy status then " with status " +:+ py_str status else EmptyString)
  +:+ (if truthy message then ": " +:+ py_str message else EmptyString)
  +:+ (if truthy body then " body=" +:+ py_str body else EmptyString).

(** The loop [for entry in results]. *)
Fixpoint apply_results (E : env) (i : nat) (results : list (gmap string pyval))
    (st : store) (token : pyval) (w : world) : (store * pyval) * world :=
  match results with
  | [] => ((st, token), w)
  | entry :: rest =>
      let new_token := dict_get entry "refreshToken" in
      if truthy new_token then
        let '(st', w') := update_login_refresh_token E st i new_token w in
        apply_results E i rest st' new_token w'
      else apply_results E i rest st token w
  end.

Definition perform_refreshes_with_node_driver (E : env) (st : store) (i : nat)
    (token : pyval) (iterations : Z) (o : node_options) : M (store * pyval) :=
  fun w =>
    let w1 := log EvHelperExists w in
    if negb (helper_present E (trace w)) then
      (Raise (SystemExit ("Node helper not found at " +:+ script_path E)), w1)
    else
      let payload := build_payload token iterations o in
      match spawn_error E (trace w1) payload with
      | Some cls => (Raise (OtherException cls), log (EvHelperFailed payload cls) w1)
      | None =>
          let result := run_helper E (trace w1) payload in
          let w2 := log (EvHelperRun payload result) w1 in
          match stdout result with
          | OutBlank => (Raise (SystemExit "Node driver did not return any output"), w2)
          | OutUnparsable raw =>
              (Raise (SystemExit ("Failed to parse Node driver output: " +:+ raw)), w2)
          | OutJsonOther => (Raise (OtherException "AttributeError"), w2)
          | OutJson r =>
              if negb (returncode result =? 0)
                 || negb (truthy (dict_get (nr_fields r) "success"))
              then (Raise (SystemExit (node_failure_message r)), w2)
              else
                let '(res, w3) :=
                  apply_results E i (default [] (nr_results r)) st token w2 in
                (Ok res, w3)
          end
      end.

(** ** Command-line front end *)

Definition perform_refreshes (E : env) (login_id : option string) (iterations : Z)
    (preset driver : string) (o : node_options) : M (store * pyval) :=
  let* st := load_token_store E in
  match find_login st login_id with
  | Raise e => raise e
  | Ok i =>
      let token := dict_get (default ∅ (logins_of st !! i)) "refreshToken" in
      if negb (truthy token) then
        raise (SystemExit "Selected login does not include a refreshToken field")
      else
        let driver_key := strip (lower driver) in
        if negb (member driver_key DRIVERS) then
          raise (SystemExit ("Unsupported driver '" +:+ driver
                             +:+ "'. Expected one of: ['node', 'requests']"))
        else if String.eqb driver_key "node" then
          perform_refreshes_with_node_driver E st i token iterations o
        else
          let* s := build_session E preset in
          refresh_cycles E s i (Z.to_nat iterations) st token
  end.

(** The namespace returned by [parser.parse_args]. *)
Record args := {
  login_id : option string;
  count : Z;
  preset : string;
  driver : string;
  trace_path : option string;
  node_method : option string;
  node_client : option string;
  node_keepalive : option string;
  node_connection_close : bool;
  node_tls_min : option string;
  node_tls_max : option string;
  node_tls_ciphers : option string;
  node_headers : option (list string)
}.

Definition expand_path (E : env) (path : option string) : option string :=
  match path with
  | Some p => if nonempty p then Some (abspath_expanduser E p) else None
  | None => None
  end.

(** The loop [for header in args.node_headers], filling [node_headers]. *)
Fixpoint parse_node_headers (hs : list string) (acc : gmap string string)
  : outcome (gmap string string) :=
  match hs with
  | [] => Ok acc
  | header :: rest =>
      if negb (nonempty header) || String.eqb (strip header) EmptyString then
        parse_node_headers rest acc
      else if negb (has_colon header) then
        Raise (SystemExit "--node-header values must be in 'Key: Value' format")
      else
        match split_colon header with
        | Some (key, value) =>
            parse_node_headers rest (<[strip key := strip value]> acc)
        | None => Raise (SystemExit "--node-header values must be in 'Key: Value' format")
        end
  end.

(** The block [if args.node_headers: ...]: an absent or empty list of
    flags leaves [node_headers] at [None]. *)
Definition node_headers_of (a : args) : outcome (option (gmap string string)) :=
  match node_headers a with
  | Some (h :: hs) =>
      match parse_node_headers (h :: hs) ∅ with
      | Ok d => Ok (Some d)
      | Raise e => Raise e
      end
  | _ => Ok None
  end.

(** The keyword arguments [main] passes to [perform_refreshes]. *)
Definition options_of (E : env) (a : args) (headers : option (gmap string string))
  : node_options :=
  {| opt_trace_path := expand_path E (trace_path a);
     opt_method := node_method a;
     opt_client := node_client a;
     opt_keepalive :=
       match node_keepalive a with
       | Some v => Some (String.eqb (lower v) "true")
       | None => None
       end;
     opt_connection_close := node_connection_close a;
     opt_tls_min := node_tls_min a;
     opt_tls_max := node_tls_max a;
     opt_tls_ciphers := node_tls_ciphers a;
     opt_headers := headers |}.

(** [main] returns nothing in the source; here a completed run hands back
    the store in memory and the last token, so that they can be observed. *)
Definition main (E : env) (a : args) : M (store * pyval) :=
  if count a <=? 0 then raise (SystemExit "--count must be >= 1")
  else
    match node_headers_of a with
    | Raise e => raise e
    | Ok headers =>
        perform_refreshes E (login_id a) (count a) (preset a) (driver a)
          (options_of E a headers)
    end.

(** ** Observing a run *)

(** The events a computation added when it took the world [w] to [w']. *)
Definition emitted (w w' : world) : list event :=
  drop (length (trace w)) (trace w').

(** The calls of [session.get], answered or not. *)
Definition http_requests (evs : list event) : list request :=
  omap (fun e => match e with
                 | EvHttpGet q _ | EvHttpFailed q _ => Some q
                 | _ => None
                 end) evs.

Definition http_responses (evs : list event) : list response :=
  omap (fun e => match e with EvHttpGet _ r => Some r | _ => None end) evs.

(** The calls of [session.get] that raised, with the exception's class. *)
Definition http_failures (evs : list event) : list (request * string) :=
  omap (fun e => match e with EvHttpFailed q cls => Some (q, cls) | _ => None end) evs.

Definition store_writes (evs : list event) : list store :=
  omap (fun e => match e with EvStoreWrite st => Some st | _ => None end) evs.

(** The calls of [subprocess.run], whether the helper started or not. *)
Definition helper_runs (evs : list event) : list node_payload :=
  omap (fun e => match e with
                 | EvHelperRun p _ | EvHelperFailed p _ => Some p
                 | _ => None
                 end) evs.

(** The events that touch [token-store.json]. *)
Definition is_store_access (e : event) : bool :=
  match e with
  | EvStoreExists | EvStoreRead | EvStoreWrite _ => true
  | _ => false
  end.

Definition store_accesses (evs : list event) : list event :=
  List.filter is_store_access evs.

Definition hop_event (h : request * response) : event := EvHttpGet h.1 h.2.

(** The redirect test as the specification words it: a 3xx status and a
    Location header, whatever its value. *)
Definition redirect_as_specified (r : response) : bool :=
  (300 <=? status_code r) && (status_code r <? 400)
  && bool_decide (is_Some (location r)).

(** [i] is the position of the first login whose id prints as [id]. *)
Definition first_match (logins : list (gmap string pyval)) (id : string) (i : nat) : Prop :=
  (exists login, logins !! i = Some login /\ py_str (dict_get login "id") = id)
  /\ forall j login, (j < i)%nat -> logins !! j = Some login ->
       py_str (dict_get login "id") <> id.

(** A token as the signatures type it: a string, or nothing. *)
Definition token_value (t : option string) : pyval :=
  match t with
  | Some s => PStr s
  | None => PNone
  end.

(** The store after the token of login [i] was replaced by [tok] at time
    [ts]. *)
Definition rotated (st : store) (i : nat) (login : gmap string pyval)
    (tok : pyval) (ts : string) : store :=
  {| store_updatedAt := Some (PStr ts);
     store_logins :=
       Some (<[i := <["updatedAt" := PStr ts]> (<["refreshToken" := tok]> login)]>
               (logins_of st)) |}.

(** Going from [w] to [w'] added only events that satisfy [P]. *)
Definition adds (P : event -> Prop) (w w' : world) : Prop :=
  exists evs, trace w' = trace w ++ evs /\ Forall P evs.

Definition adding (P : event -> Prop) {A} (m : M A) : Prop :=
  forall w, adds P w (snd (m w)).

(** ** Masking a token for display *)

(** [s[:n]] and [s[n:]] for [0 <= n]. *)
Fixpoint str_take (n : nat) (s : string) : string :=
  match n, s with
  | S n', String c s' => String c (str_take n' s')
  | _, _ => EmptyString
  end.

Fixpoint str_drop (n : nat) (s : string) : string :=
  match n, s with
  | S n', String _ s' => str_drop n' s'
  | _, _ => s
  end.

(** What [mask_token] returns: the text ["<missing>"], the token itself, or
    the f-string made of two pieces of the token around an ellipsis.  The
    ellipsis is not a character of the model, so the result is kept in
    parts. *)
Inductive masked :=
| MaskMissing
| MaskWhole (token : string)
| MaskEnds (first last : string).

Definition mask_token (token : pyval) : masked :=
  match token with
  | PStr s =>
      if negb (nonempty s) then MaskMissing
      else if (String.length s <=? 8)%nat then MaskWhole s
      else MaskEnds (str_take 4 s) (str_drop (String.length s - 4) s)
  | _ => MaskMissing
  end.

(** ** Relations between stores and worlds *)

(** [st'] differs from [st] at most in the [refreshToken] and [updatedAt]
    of login [i] (and in the store's own [updatedAt]). *)
Definition keeps_rest (i : nat) (st st' : store) : Prop :=
  length (logins_of st') = length (logins_of st)
  /\ (forall j, j <> i -> logins_of st' !! j = logins_of st !! j)
  /\ (forall login login', logins_of st !! i = Some login ->
         logins_of st' !! i = Some login' ->
         forall k, k <> "refreshToken" -> k <> "updatedAt" ->
           login' !! k = login !! k).

(** The file holds the store in memory, and the token in hand equals the
    [refreshToken] of login [i] in it. *)
Definition in_sync (i : nat) (st : store) (tok : pyval) (w : world) : Prop :=
  disk w = FileJson st
  /\ exists login, logins_of st !! i = Some login
       /\ py_eq (dict_get login "refreshToken") tok = true.

(** The requests of a redirect chain that starts at [url]: each one goes to
    the previous URL joined with the previous answer's Location. *)
Fixpoint chained (E : env) (url : string) (hops : list (request * response)) : Prop :=
  match hops with
  | [] => True
  | (q, r) :: rest =>
      req_url q = url
      /\ chained E (urljoin E url (default EmptyString (location r))) rest
  end.

(** The URL that the loop holds after a chain of answered requests that
    started at [url]. *)
Fixpoint chain_end (E : env) (url : string) (hops : list (request * response)) : string :=
  match hops with
  | [] => url
  | (_, r) :: rest =>
      chain_end E (urljoin E url (default EmptyString (location r))) rest
  end.

Definition is_http (e : event) : bool :=
  match e with EvHttpGet _ _ | EvHttpFailed _ _ => true | _ => false end.

Definition is_helper_run (e : event) : bool :=
  match e with EvHelperRun _ _ | EvHelperFailed _ _ => true | _ => false end.

Definition is_store_write (e : event) : bool :=
  match e with EvStoreWrite _ => true | _ => false end.

(** A header value that the loop of [main] skips. *)
Definition blank (h : string) : Prop := strip h = EmptyString.

(** ** Sample worlds *)

Module Sample.

Definition plain (status : Z) (loc : option string)
    (body : option (gmap string pyval)) : response :=
  {| status_code := status; location := loc; set_cookie := None;
     text := "body"; json_body := body |}.

Definition helper_ok : completed_process :=
  {| returncode := 0;
     stdout := OutJson {| nr_fields := {["success" := PBool true]};
                          nr_results := Some [] |} |}.

(** A world whose server always answers [r] and whose helper always
    succeeds without rotating the token. *)
Definition constant_env (r : response) : env :=
  {| request_error := fun _ _ => None;
     respond := fun _ _ => r;
     helper_present := fun _ => true;
     spawn_error := fun _ _ => None;
     run_helper := fun _ _ => helper_ok;
     urljoin_error := fun _ _ => None;
     utc_now := fun tr => "2025-01-01T00:00:00Z";
     urljoin := fun _ loc => loc;
     abspath_expanduser := fun p => p;
     default_headers := ∅;
     TOKEN_STORE_PATH := "/srv/server/token-store.json";
     script_path := "/srv/server/scripts/refresh_questrade_token_node.js" |}.

(** A world like [constant_env r], except that [session.get] refuses the
    URL [bad] with an exception of class [cls]. *)
Definition refusing_env (r : response) (bad cls : string) : env :=
  {| request_error := fun _ q => if String.eqb (req_url q) bad then Some cls else None;
     respond := fun _ _ => r;
     helper_present := fun _ => true;
     spawn_error := fun _ _ => None;
     run_helper := fun _ _ => helper_ok;
     urljoin_error := fun _ _ => None;
     utc_now := fun tr => "2025-01-01T00:00:00Z";
     urljoin := fun _ loc => loc;
     abspath_expanduser := fun p => p;
     default_headers := ∅;
     TOKEN_STORE_PATH := "/srv/server/token-store.json";
     script_path := "/srv/server/scripts/refresh_questrade_token_node.js" |}.

Definition login_of (id : pyval) (token : pyval) : gmap string pyval :=
  <["refreshToken" := token]> {["id" := id]}.

Definition store_of (logins : list (gmap string pyval)) : store :=
  {| store_updatedAt := Some (PStr "2024-12-31T00:00:00Z");
     store_logins := Some logins |}.

Definition one_login : store := store_of [login_of (PStr "a") (PStr "R1")].

Definition on_disk (st : store) : world := {| disk := FileJson st; trace := [] |}.

Definition the_session : session := {| session_headers := ∅ |}.

Definition base_args : args :=
  {| login_id := None; count := 1; preset := "python"; driver := "requests";
     trace_path := None; node_method := None; node_client := None;
     node_keepalive := None; node_connection_close := false;
     node_tls_min := None; node_tls_max := None; node_tls_ciphers := None;
     node_headers := None |}.

Definition with_driver (d : string) (a : args) : args :=
  {| login_id := login_id a; count := count a; preset := preset a; driver := d;
     trace_path := trace_path a; node_method := node_method a;
     node_client := node_client a; node_keepalive := node_keepalive a;
     node_connection_close := node_connection_close a;
     node_tls_min := node_tls_min a; node_tls_max := node_tls_max a;
     node_tls_ciphers := node_tls_ciphers a; node_headers := node_headers a |}.

Definition with_preset (p : string) (a : args) : args :=
  {| login_id := login_id a; count := count a; preset := p; driver := driver a;
     trace_path := trace_path a; node_method := node_method a;
     node_client := node_client a; node_keepalive := node_keepalive a;
     node_connection_close := node_connection_close a;
     node_tls_min := node_tls_min a; node_tls_max := node_tls_max a;
     node_tls_ciphers := node_tls_ciphers a; node_headers := node_headers a |}.

Definition with_headers (hs : list string) (a : args) : args :=
  {| login_id := login_id a; count := count a; preset := preset a; driver := driver a;
     trace_path := trace_path a; node_method := node_method a;
     node_client := node_client a; node_keepalive := node_keepalive a;
     node_connection_close := node_connection_close a;
     node_tls_min := node_tls_min a; node_tls_max := node_tls_max a;
     node_tls_ciphers := node_tls_ciphers a; node_headers := Some hs |}.

Definition with_count (n : Z) (a : args) : args :=
  {| login_id := login_id a; count := n; preset := preset a; driver := driver a;
     trace_path := trace_path a; node_method := node_method a;
     node_client := node_client a; node_keepalive := node_keepalive a;
     node_connection_close := node_connection_close a;
     node_tls_min := node_tls_min a; node_tls_max := node_tls_max a;
     node_tls_ciphers := node_tls_ciphers a; node_headers := node_headers a |}.

End Sample.

(** * Properties *)

(** ** Small checks of the string and value functions *)

Example py_str_int : py_str (PInt (-42)) = "-42".
Proof. reflexivity. Qed.

Example strip_ex : strip "  X y " = "X y".
Proof. reflexivity. Qed.

Example split_ex : split_colon "X: 1:2" = Some ("X", " 1:2").
Proof. reflexivity. Qed.

Example lower_ex : strip (lower " NoDe ") = "node".
Proof. reflexivity. Qed.

Example main_ex :
  fst (main (Sample.constant_env (Sample.plain 200 None (Some {["refresh_token" := PStr "R2"]})))
         Sample.base_args (Sample.on_disk Sample.one_login))
  = Ok ({| store_updatedAt := Some (PStr "2025-01-01T00:00:00Z");
           store_logins := Some [<["updatedAt" := PStr "2025-01-01T00:00:00Z"]>
                                   (Sample.login_of (PStr "a") (PStr "R2"))] |},
        PStr "R2").
Proof. vm_compute. reflexivity. Qed.

(** ** Traces *)

Lemma emitted_app (w w' : world) (evs : list event) :
  trace w' = trace w ++ evs -> emitted w w' = evs.
Proof.
  intros H. unfold emitted. rewrite H. apply drop_app_length.
Qed.

Lemma emitted_refl (w : world) : emitted w w = [].
Proof. apply emitted_app. now rewrite app_nil_r. Qed.

Lemma http_requests_hops (hops : list (request * response)) :
  http_requests (map hop_event hops) = map fst hops.
Proof.
  induction hops as [|[q r] hops IH]; simpl; [reflexivity|].
  unfold http_requests in *. simpl. now rewrite IH.
Qed.

Lemma http_responses_hops (hops : list (request * response)) :
  http_responses (map hop_event hops) = map snd hops.
Proof.
  induction hops as [|[q r] hops IH]; simpl; [reflexivity|].
  unfold http_responses in *. simpl. now rewrite IH.
Qed.

Lemma http_failures_hops (hops : list (request * response)) :
  http_failures (map hop_event hops) = [].
Proof.
  induction hops as [|h hops IH]; [reflexivity | exact IH].
Qed.

Lemma http_requests_app (a b : list event) :
  http_requests (a ++ b) = http_requests a ++ http_requests b.
Proof. apply omap_app. Qed.

Lemma http_responses_app (a b : list event) :
  http_responses (a ++ b) = http_responses a ++ http_responses b.
Proof. apply omap_app. Qed.

Lemma http_failures_app (a b : list event) :
  http_failures (a ++ b) = http_failures a ++ http_failures b.
Proof. apply omap_app. Qed.

Lemma store_writes_app (a b : list event) :
  store_writes (a ++ b) = store_writes a ++ store_writes b.
Proof. apply omap_app. Qed.

Lemma helper_runs_app (a b : list event) :
  helper_runs (a ++ b) = helper_runs a ++ helper_runs b.
Proof. apply omap_app. Qed.

(** A list of calls of [session.get] holds as many requests as events, no
    write of the store and no call of the helper. *)
Lemma http_only (evs : list event) :
  Forall (fun e => is_http e = true) evs ->
  length (http_requests evs) = length evs
  /\ store_writes evs = []
  /\ helper_runs evs = [].
Proof.
  induction 1 as [|e evs He _ IH]; [repeat split|].
  destruct IH as (H1 & H2 & H3).
  destruct e; try discriminate He; simpl; rewrite ?H1; repeat split; assumption.
Qed.

(** ** The redirect loop *)

Section RedirectLoop.

Variable E : env.
Variable s : session.

(** What a run of the loop looks like: the requests that were answered, with
    their answers, in order, and after them at most one request that was
    not.  Only the first request carries [params]; every answer but the
    last is a redirect.  The run returns the first answer that is not a
    redirect; it raises when its [n] attempts are used up, when
    [session.get] raises, or when [urljoin] rejects a Location. *)
Lemma refresh_attempts_run (n : nat) :
  forall url params w,
  exists (hops : list (request * response)) (tail : list event),
    trace (snd (refresh_attempts E s n url params w))
      = trace w ++ map hop_event hops ++ tail
    /\ disk (snd (refresh_attempts E s n url params w)) = disk w
    /\ (forall q rest, map fst hops ++ http_requests tail = q :: rest ->
          req_url q = url /\ req_params q = params
          /\ Forall (fun q' => req_params q' = None) rest)
    /\ (length hops + length tail <= n)%nat
    /\ match fst (refresh_attempts E s n url params w) with
       | Ok resp =>
           tail = []
           /\ exists pre q, hops = pre ++ [(q, resp)]
                /\ is_redirect resp = false
                /\ Forall (fun h => is_redirect h.2 = true) pre
       | Raise e =>
           Forall (fun h => is_redirect h.2 = true) hops
           /\ ((e = RuntimeError "Exceeded maximum redirect attempts during refresh"
                /\ tail = [] /\ length hops = n)
               \/ (exists q cls,
                     e = OtherException cls /\ tail = [EvHttpFailed q cls]
                     /\ request_error E (trace w ++ map hop_event hops) q = Some cls)
               \/ (exists cls pre q r,
                     e = OtherException cls /\ tail = []
                     /\ hops = pre ++ [(q, r)]
                     /\ urljoin_error E (req_url q) (default EmptyString (location r))
                        = Some cls))
       end.
Proof.
  induction n as [|n IH]; intros url params w.
  - exists [], []. simpl. rewrite app_nil_r.
    split; [reflexivity|]. split; [reflexivity|]. split.
    + intros q rest H. discriminate H.
    + split; [lia|]. split; [constructor|]. left. repeat split.
  - cbn [refresh_attempts].
    set (req := {| req_url := url; req_params := params;
                   req_headers := session_headers s |}).
    destruct (request_error E (trace w) req) as [cls|] eqn:Herr.
    { exists [], [EvHttpFailed req cls]. simpl.
      split; [reflexivity|]. split; [reflexivity|]. split.
      - intros q rest Heq. injection Heq as <- <-.
        split; [reflexivity|]. split; [reflexivity|]. constructor.
      - split; [lia|]. split; [constructor|]. right. left.
        exists req, cls. rewrite app_nil_r. repeat split. exact Herr. }
    set (resp := respond E (trace w) req).
    destruct (is_redirect resp) eqn:Hred.
    + destruct (urljoin_error E url (default EmptyString (location resp)))
        as [cls|] eqn:Hjoin.
      { exists [(req, resp)], []. simpl.
        split; [reflexivity|]. split; [reflexivity|]. split.
        - intros q rest Heq. injection Heq as <- <-.
          split; [reflexivity|]. split; [reflexivity|]. constructor.
        - split; [lia|]. split; [repeat constructor; exact Hred|]. right. right.
          exists cls, [], req, resp. repeat split. exact Hjoin. }
      destruct (IH (urljoin E url (default EmptyString (location resp))) None
                  (log (EvHttpGet req resp) w))
        as (hops & tail & Htr & Hdisk & Hshape & Hlen & Hres).
      exists ((req, resp) :: hops), tail.
      split; [|split; [|split; [|split]]].
      * rewrite Htr. simpl. now rewrite <- app_assoc.
      * rewrite Hdisk. reflexivity.
      * intros q rest Heq. simpl in Heq. injection Heq as <- <-.
        split; [reflexivity|]. split; [reflexivity|].
        destruct (map fst hops ++ http_requests tail) as [|q' rest'] eqn:Hq;
          [constructor|].
        destruct (Hshape q' rest' eq_refl) as (_ & Hp & Hrest).
        constructor; [exact Hp | exact Hrest].
      * simpl. lia.
      * destruct (fst (refresh_attempts E s n _ None _)) as [r|e].
        -- destruct Hres as (Ht & pre & q & Hh & Hnr & Hpre).
           split; [exact Ht|].
           exists ((req, resp) :: pre), q. rewrite Hh. simpl.
           repeat split; try assumption. constructor; assumption.
        -- destruct Hres as (Hall & Hcase).
           split; [constructor; assumption|].
           destruct Hcase as [(He & Ht & Hl) | [(q & cls & He & Ht & Hq)
                                               | (cls & pre & q & r & He & Ht & Hh & Hj)]].
           ++ left. repeat split; try assumption. simpl. now rewrite Hl.
           ++ right. left. exists q, cls. repeat split; try assumption.
              simpl in Hq. rewrite <- app_assoc in Hq. exact Hq.
           ++ right. right. exists cls, ((req, resp) :: pre), q, r.
              rewrite Hh. repeat split; assumption.
    + exists [(req, resp)], []. simpl.
      split; [reflexivity|]. split; [reflexivity|]. split.
      * intros q rest Heq. injection Heq as <- <-.
        split; [reflexivity|]. split; [reflexivity|]. constructor.
      * split; [lia|]. split; [reflexivity|]. exists [], req.
        split; [reflexivity|]. split; [exact Hred|]. constructor.
Qed.

(** A run of [refresh_once] calls [session.get] at least once. *)
Lemma refresh_once_run (token : pyval) (w : world) :
  exists (hops : list (request * response)) (tail : list event),
    trace (snd (refresh_once E s token w)) = trace w ++ map hop_event hops ++ tail
    /\ disk (snd (refresh_once E s token w)) = disk w
    /\ (exists q rest,
          map fst hops ++ http_requests tail = q :: rest
          /\ req_url q = TOKEN_URL
          /\ req_params q
             = Some [("grant_type", PStr "refresh_token"); ("refresh_token", token)]
          /\ Forall (fun q' => req_params q' = None) rest)
    /\ (1 <= length hops + length tail <= MAX_REDIRECTS + 1)%nat
    /\ match fst (refresh_once E s token w) with
       | Ok resp =>
           tail = []
           /\ exists pre q, hops = pre ++ [(q, resp)]
                /\ is_redirect resp = false
                /\ Forall (fun h => is_redirect h.2 = true) pre
       | Raise e =>
           Forall (fun h => is_redirect h.2 = true) hops
           /\ ((e = RuntimeError "Exceeded maximum redirect attempts during refresh"
                /\ tail = [] /\ length hops = (MAX_REDIRECTS + 1)%nat)
               \/ (exists q cls,
                     e = OtherException cls /\ tail = [EvHttpFailed q cls]
                     /\ request_error E (trace w ++ map hop_event hops) q = Some cls)
               \/ (exists cls pre q r,
                     e = OtherException cls /\ tail = []
                     /\ hops = pre ++ [(q, r)]
                     /\ urljoin_error E (req_url q) (default EmptyString (location r))
                        = Some cls))
       end.
Proof.
  unfold refresh_once.
  destruct (refresh_attempts_run (MAX_REDIRECTS + 1) TOKEN_URL
              (Some [("grant_type", PStr "refresh_token"); ("refresh_token", token)]) w)
    as (hops & tail & Htr & Hdisk & Hshape & Hlen & Hres).
  exists hops, tail.
  split; [exact Htr|]. split; [exact Hdisk|].
  assert (Hpos : (1 <= length hops + length tail)%nat).
  { destruct (fst (refresh_attempts E s (MAX_REDIRECTS + 1) _ _ w)).
    - destruct Hres as (_ & pre & q & -> & _). rewrite length_app. simpl. lia.
    - destruct Hres as (_ & [(_ & _ & Hl) | [(q & cls & _ & -> & _)
                                            | (cls & pre & q & r & _ & _ & -> & _)]]).
      + rewrite Hl. simpl. lia.
      + simpl. lia.
      + rewrite length_app. simpl. lia. }
  split; [|split; [lia | exact Hres]].
  destruct (map fst hops ++ http_requests tail) as [|q rest] eqn:Hq.
  - exfalso. apply app_eq_nil in Hq as [Hh Ht].
    apply map_eq_nil in Hh. subst hops.
    destruct (fst (refresh_attempts E s (MAX_REDIRECTS + 1) _ _ w)).
    + destruct Hres as (_ & pre & q & Hh & _). destruct pre; discriminate Hh.
    + destruct Hres as (_ & [(_ & _ & Hl) | [(q & cls & _ & -> & _)
                                            | (cls & pre & q & r & _ & _ & Hh & _)]]).
      * discriminate Hl.
      * discriminate Ht.
      * destruct pre; discriminate Hh.
  - destruct (Hshape q rest eq_refl) as (Hu & Hp & Hrest).
    exists q, rest. repeat split; assumption.
Qed.

(** The events of [refresh_once] are between one and six calls of
    [session.get], and the store file is not touched. *)
Lemma refresh_once_http (token : pyval) (w : world) :
  exists evs : list event,
    trace (snd (refresh_once E s token w)) = trace w ++ evs
    /\ disk (snd (refresh_once E s token w)) = disk w
    /\ Forall (fun e => is_http e = true) evs
    /\ (1 <= length evs <= MAX_REDIRECTS + 1)%nat.
Proof.
  destruct (refresh_once_run token w)
    as (hops & tail & Htr & Hdisk & _ & Hlen & Hres).
  exists (map hop_event hops ++ tail).
  split; [exact Htr|]. split; [exact Hdisk|]. split.
  - apply Forall_app. split.
    + apply Forall_map. apply Forall_forall. intros h _. reflexivity.
    + destruct (fst (refresh_once E s token w)).
      * destruct Hres as (-> & _). constructor.
      * destruct Hres as (_ & [(_ & -> & _) | [(q & cls & _ & -> & _)
                                              | (cls & pre & q & r & _ & -> & _)]]);
          repeat constructor.
  - rewrite length_app, length_map. exact Hlen.
Qed.

End RedirectLoop.

(** An answer with status 302 and an empty Location header is a redirect in
    the specification's words, yet [refresh_once] returns it after a single
    request: the loop follows a redirect only when the header's value is
    non-empty. *)
Lemma C1_empty_location_counterexample :
  let E := Sample.constant_env (Sample.plain 302 (Some EmptyString) None) in
  let w := Sample.on_disk Sample.one_login in
  let run := refresh_once E Sample.the_session (PStr "R1") w in
  Forall (fun r => redirect_as_specified r = true)
    (http_responses (emitted w (snd run)))
  /\ length (http_requests (emitted w (snd run))) = 1%nat
  /\ fst run = Ok (Sample.plain 302 (Some EmptyString) None).
Proof.
  vm_compute. split; [|split; reflexivity].
  constructor; [reflexivity | constructor].
Qed.

(** A second run that the property as written does not allow for: the only
    answer is a 302 whose Location joins to a URL that [session.get]
    refuses, so the second call raises.  Every response received was a
    redirect, yet the run made two calls, not six, and the error is the
    library's, not the one for exceeded redirects. *)
Lemma refresh_once_unrequestable_redirect :
  let answer := Sample.plain 302 (Some "foo://bar") None in
  let E := Sample.refusing_env answer "foo://bar" "InvalidSchema" in
  let w := Sample.on_disk Sample.one_login in
  let run := refresh_once E Sample.the_session (PStr "R1") w in
  http_responses (emitted w (snd run)) = [answer]
  /\ is_redirect answer = true
  /\ length (http_requests (emitted w (snd run))) = 2%nat
  /\ fst run = Raise (OtherException "InvalidSchema").
Proof. vm_compute. repeat split. Qed.

(** C1 (amended): take a run of [refresh_once] in which no library call
    raises, so that every [session.get] returns a response and every
    [urljoin] returns a URL.  When every response received is a redirect as
    the code tests it (a status in [300,400) and a non-empty Location
    header), the run makes exactly [MAX_REDIRECTS + 1], that is six,
    requests and then raises the error for exceeded redirects.  And in
    every run, a response whose Location header is present but empty is not
    followed: it is the response the function returns. *)
Theorem C1_redirects_exhaust_attempts (E : env) (s : session) (token : pyval)
    (w : world) :
  (Forall (fun r => is_redirect r = true)
     (http_responses (emitted w (snd (refresh_once E s token w)))) ->
   (forall cls, fst (refresh_once E s token w) <> Raise (OtherException cls)) ->
   fst (refresh_once E s token w)
     = Raise (RuntimeError "Exceeded maximum redirect attempts during refresh")
   /\ length (http_requests (emitted w (snd (refresh_once E s token w))))
      = (MAX_REDIRECTS + 1)%nat
   /\ (MAX_REDIRECTS + 1 = 6)%nat)
  /\ (forall r,
        In r (http_responses (emitted w (snd (refresh_once E s token w)))) ->
        location r = Some EmptyString ->
        fst (refresh_once E s token w) = Ok r).
Proof.
  destruct (refresh_once_run E s token w)
    as (hops & tail & Htr & _ & _ & _ & Hres).
  rewrite (emitted_app _ _ _ Htr) in *.
  rewrite http_responses_app, http_requests_app,
    http_responses_hops, http_requests_hops.
  assert (Hempty : forall r, location r = Some EmptyString -> is_redirect r = false).
  { intros r Hloc. unfold is_redirect. rewrite Hloc. apply andb_false_r. }
  split.
  - intros Hall Hlib.
    destruct (fst (refresh_once E s token w)) as [resp|e].
    + exfalso. destruct Hres as (-> & pre & q' & Hh & Hnr & _).
      rewrite Hh in Hall. simpl in Hall. rewrite app_nil_r, map_app in Hall.
      apply Forall_app in Hall as [_ Hlast].
      inversion Hlast as [|? ? Hr _]; subst. simpl in Hr. congruence.
    + destruct Hres as (_ & [(-> & -> & Hlen) | [(q & cls & -> & _)
                                                | (cls & pre & q & r & -> & _)]]).
      * split; [reflexivity|]. split; [|reflexivity].
        simpl. rewrite app_nil_r, length_map. exact Hlen.
      * exfalso. now apply (Hlib cls).
      * exfalso. now apply (Hlib cls).
  - intros r Hin Hloc. specialize (Hempty r Hloc).
    assert (Htail : http_responses tail = []).
    { destruct (fst (refresh_once E s token w)).
      - destruct Hres as (-> & _). reflexivity.
      - destruct Hres as (_ & [(_ & -> & _) | [(q & cls & _ & -> & _)
                                              | (cls & pre & q & r' & _ & -> & _)]]);
          reflexivity. }
    rewrite Htail, app_nil_r in Hin.
    assert (Hnot : forall l : list (request * response),
               Forall (fun h => is_redirect h.2 = true) l -> ~ In r (map snd l)).
    { intros l Hl Hr. apply in_map_iff in Hr as (h & <- & Hh).
      rewrite List.Forall_forall in Hl. specialize (Hl h Hh). congruence. }
    destruct (fst (refresh_once E s token w)) as [resp|e].
    + destruct Hres as (_ & pre & q' & -> & _ & Hpre).
      rewrite map_app in Hin. apply in_app_or in Hin as [Hin | Hin].
      * exfalso. now apply (Hnot pre).
      * simpl in Hin. destruct Hin as [<- | []]. reflexivity.
    + exfalso. destruct Hres as (Hall & _). now apply (Hnot hops).
Qed.

Lemma C1_redirects_exhaust_attempts_witness :
  let E := Sample.constant_env (Sample.plain 302 (Some "/next") None) in
  let w := Sample.on_disk Sample.one_login in
  fst (refresh_once E Sample.the_session (PStr "R1") w)
    = Raise (RuntimeError "Exceeded maximum redirect attempts during refresh")
  /\ length (http_requests
               (emitted w (snd (refresh_once E Sample.the_session (PStr "R1") w))))
     = (MAX_REDIRECTS + 1)%nat
  /\ (MAX_REDIRECTS + 1 = 6)%nat.
Proof.
  intros E w.
  apply (proj1 (C1_redirects_exhaust_attempts E Sample.the_session (PStr "R1") w)).
  - vm_compute. repeat constructor.
  - intros cls H. vm_compute in H. discriminate H.
Defined.

(** C2: in every run of [refresh_once] the first call of [session.get],
    answered or not, goes to the token URL with the query parameters
    [grant_type=refresh_token] and [refresh_token=<token>], and every call
    after it, that is every request made once a redirect has been followed,
    carries no query parameters; the run consists of these calls only. *)
Theorem C2_params_only_on_first_request (E : env) (s : session) (token : pyval)
    (w : world) :
  exists (q : request) (first : event) (later : list event),
    emitted w (snd (refresh_once E s token w)) = first :: later
    /\ ((exists r, first = EvHttpGet q r) \/ (exists cls, first = EvHttpFailed q cls))
    /\ req_url q = TOKEN_URL
    /\ req_params q
       = Some [("grant_type", PStr "refresh_token"); ("refresh_token", token)]
    /\ Forall (fun q' => req_params q' = None) (http_requests later)
    /\ length (http_requests later) = length later.
Proof.
  destruct (refresh_once_run E s token w)
    as (hops & tail & Htr & _ & (q & rest & Hq & Hu & Hp & Hrest) & _ & _).
  destruct (refresh_once_http E s token w) as (evs & Htr' & _ & Hhttp & _).
  assert (Hevs : evs = map hop_event hops ++ tail).
  { rewrite Htr in Htr'. now apply app_inv_head in Htr'. }
  rewrite (emitted_app _ _ _ Htr').
  assert (Hreq : http_requests evs = q :: rest).
  { rewrite Hevs, http_requests_app, http_requests_hops. exact Hq. }
  destruct evs as [|first later]; [discriminate Hreq|].
  inversion Hhttp as [|? ? Hfirst Hlater]; subst.
  exists q, first, later. split; [reflexivity|].
  destruct first; try discriminate Hfirst; injection Hreq as -> <-;
    (split; [eauto|]); (split; [exact Hu|]); (split; [exact Hp|]);
    (split; [exact Hrest|]); apply (http_only later Hlater).
Qed.

(** ** Updating the store *)

Lemma py_eq_refl (v : pyval) : py_eq v v = true.
Proof.
  destruct v as [|b|z|t]; simpl.
  - reflexivity.
  - apply Bool.eqb_reflx.
  - apply Z.eqb_refl.
  - apply String.eqb_refl.
Qed.

Lemma py_eq_str (v : pyval) (t : string) : py_eq v (PStr t) = true <-> v = PStr t.
Proof.
  destruct v as [|b|z|u]; simpl; split; intros H; try discriminate H.
  - apply String.eqb_eq in H. now subst.
  - injection H as ->. apply String.eqb_refl.
Qed.

Section Update.

Variable E : env.

Lemma update_falsy (st : store) (i : nat) (tok : pyval) (w : world) :
  truthy tok = false -> update_login_refresh_token E st i tok w = (st, w).
Proof. intros H. unfold update_login_refresh_token. now rewrite H. Qed.

Lemma update_same (st : store) (i : nat) (login : gmap string pyval)
    (tok : pyval) (w : world) :
  logins_of st !! i = Some login ->
  py_eq (dict_get login "refreshToken") tok = true ->
  update_login_refresh_token E st i tok w = (st, w).
Proof.
  intros Hl Heq. unfold update_login_refresh_token.
  destruct (truthy tok); simpl; [|reflexivity].
  now rewrite Hl, Heq.
Qed.

Lemma update_changes (st : store) (i : nat) (login : gmap string pyval)
    (tok : pyval) (w : world) :
  logins_of st !! i = Some login ->
  truthy tok = true ->
  py_eq (dict_get login "refreshToken") tok = false ->
  update_login_refresh_token E st i tok w
  = (rotated st i login tok (utc_now E (trace w)),
     {| disk := FileJson (rotated st i login tok (utc_now E (trace w)));
        trace := trace w ++ [EvClock (utc_now E (trace w));
                             EvStoreWrite (rotated st i login tok (utc_now E (trace w)))] |}).
Proof.
  intros Hl Ht Hne. unfold update_login_refresh_token.
  rewrite Ht, Hl, Hne. simpl. unfold rotated.
  now rewrite <- app_assoc.
Qed.

Lemma rotated_lookup (st : store) (i : nat) (login : gmap string pyval)
    (tok : pyval) (ts : string) :
  logins_of st !! i = Some login ->
  logins_of (rotated st i login tok ts) !! i
  = Some (<["updatedAt" := PStr ts]> (<["refreshToken" := tok]> login)).
Proof.
  intros Hl. unfold rotated, logins_of at 1. simpl.
  apply list_lookup_insert_eq. eapply lookup_lt_Some. exact Hl.
Qed.

End Update.

(** C3: [update_login_refresh_token] changes neither the store in memory
    nor the world (no clock reading, no write, the file as it was) when the
    new token is absent, empty, or equal to the login's stored
    [refreshToken]; otherwise the login's [refreshToken] becomes the new
    token, the login's and the store's [updatedAt] become one and the same
    timestamp read from the clock at that call, everything else in the
    store is kept, and the whole new store has been written to the file
    when the call returns. *)
Theorem C3_update_login_refresh_token (E : env) (st : store) (i : nat)
    (login : gmap string pyval) (new_token : option string) (w : world) :
  logins_of st !! i = Some login ->
  ((new_token = None \/ new_token = Some EmptyString
    \/ dict_get login "refreshToken" = token_value new_token) ->
   update_login_refresh_token E st i (token_value new_token) w = (st, w))
  /\ (~ (new_token = None \/ new_token = Some EmptyString
         \/ dict_get login "refreshToken" = token_value new_token) ->
      exists (st' : store) (w' : world) (login' : gmap string pyval) (ts : string),
        update_login_refresh_token E st i (token_value new_token) w = (st', w')
        /\ ts = utc_now E (trace w)
        /\ logins_of st' !! i = Some login'
        /\ login' !! "refreshToken" = Some (token_value new_token)
        /\ login' !! "updatedAt" = Some (PStr ts)
        /\ store_updatedAt st' = Some (PStr ts)
        /\ (forall k, k <> "refreshToken" -> k <> "updatedAt" ->
              login' !! k = login !! k)
        /\ (forall j, j <> i -> logins_of st' !! j = logins_of st !! j)
        /\ length (logins_of st') = length (logins_of st)
        /\ disk w' = FileJson st'
        /\ emitted w w' = [EvClock ts; EvStoreWrite st']).
Proof.
  intros Hl. split.
  - intros [-> | [-> | Heq]].
    + now apply update_falsy.
    + now apply update_falsy.
    + eapply update_same; [exact Hl|]. rewrite Heq. apply py_eq_refl.
  - intros Hnot.
    destruct new_token as [t|]; [|exfalso; apply Hnot; now left].
    assert (Ht : truthy (PStr t) = true).
    { simpl. destruct (String.eqb t EmptyString) eqn:Hte; [|reflexivity].
      apply String.eqb_eq in Hte. subst. exfalso. apply Hnot. right. now left. }
    assert (Hne : py_eq (dict_get login "refreshToken") (PStr t) = false).
    { destruct (py_eq (dict_get login "refreshToken") (PStr t)) eqn:Hp; [|reflexivity].
      apply py_eq_str in Hp. exfalso. apply Hnot. right. right. exact Hp. }
    simpl token_value.
    eexists _, _, _, (utc_now E (trace w)).
    split; [apply (update_changes E st i login (PStr t) w Hl Ht Hne)|].
    split; [reflexivity|].
    split; [apply rotated_lookup; exact Hl|].
    split; [rewrite lookup_insert_ne by discriminate; apply lookup_insert_eq|].
    split; [apply lookup_insert_eq|].
    split; [reflexivity|].
    split.
    { intros k Hk1 Hk2. rewrite lookup_insert_ne by congruence.
      now rewrite lookup_insert_ne by congruence. }
    split.
    { intros j Hj. unfold rotated, logins_of at 1. simpl.
      apply list_lookup_insert_ne. congruence. }
    split.
    { unfold rotated, logins_of at 1. simpl. apply length_insert. }
    split; [reflexivity|].
    apply emitted_app. reflexivity.
Qed.

Lemma C3_update_login_refresh_token_witness :
  let E := Sample.constant_env (Sample.plain 200 None None) in
  let w := Sample.on_disk Sample.one_login in
  update_login_refresh_token E Sample.one_login 0 (token_value (Some "R1")) w
  = (Sample.one_login, w)
  /\ exists st' w',
       update_login_refresh_token E Sample.one_login 0 (token_value (Some "R2")) w
       = (st', w')
       /\ disk w' = FileJson st'
       /\ emitted w w' = [EvClock "2025-01-01T00:00:00Z"; EvStoreWrite st'].
Proof.
  intros E w. split.
  - apply (C3_update_login_refresh_token E Sample.one_login 0
             (Sample.login_of (PStr "a") (PStr "R1")) (Some "R1") w);
      [reflexivity|].
    right. right. reflexivity.
  - destruct (C3_update_login_refresh_token E Sample.one_login 0
                (Sample.login_of (PStr "a") (PStr "R1")) (Some "R2") w eq_refl)
      as [_ Hchange].
    destruct Hchange as (st' & w' & login' & ts & Hrun & Hts & _ & _ & _ & _ & _ & _ & _ & Hd & Hem).
    + intros [H | [H | H]]; discriminate H.
    + exists st', w'. rewrite Hts in Hem. auto.
Defined.

(** With the stored token already equal to the one passed, two successive
    calls write the store no time at all, not once. *)
Lemma C4_same_token_counterexample :
  let E := Sample.constant_env (Sample.plain 200 None None) in
  let w := Sample.on_disk Sample.one_login in
  let first := update_login_refresh_token E Sample.one_login 0 (PStr "R1") w in
  let second := update_login_refresh_token E (fst first) 0 (PStr "R1") (snd first) in
  truthy (PStr "R1") = true
  /\ length (store_writes (emitted w (snd second))) = 0%nat
  /\ length (store_writes (emitted w (snd second))) <> 1%nat.
Proof. vm_compute. repeat split. discriminate. Qed.

(** C4 (amended): for every store, login of the store and non-empty token,
    a second call of [update_login_refresh_token] with the same token right
    after the first changes nothing: the store and the world after the
    second call are those after the first.  The two calls together write
    the store once when the token differs from the stored one and not at
    all when it equals it. *)
Theorem C4_update_idempotent (E : env) (st : store) (i : nat)
    (login : gmap string pyval) (tok : pyval) (w : world) :
  logins_of st !! i = Some login ->
  truthy tok = true ->
  let first := update_login_refresh_token E st i tok w in
  let second := update_login_refresh_token E (fst first) i tok (snd first) in
  second = first
  /\ length (store_writes (emitted w (snd second)))
     = (if py_eq (dict_get login "refreshToken") tok then 0 else 1)%nat.
Proof.
  intros Hl Ht first second. subst first second.
  destruct (py_eq (dict_get login "refreshToken") tok) eqn:Heq.
  - rewrite (update_same E st i login tok w Hl Heq). simpl.
    rewrite (update_same E st i login tok w Hl Heq).
    split; [reflexivity|]. simpl. now rewrite emitted_refl.
  - rewrite (update_changes E st i login tok w Hl Ht Heq). simpl.
    set (st' := rotated st i login tok (utc_now E (trace w))).
    assert (Hsame : update_login_refresh_token E st' i tok
                      {| disk := FileJson st';
                         trace := trace w ++ [EvClock (utc_now E (trace w)); EvStoreWrite st'] |}
                    = (st', {| disk := FileJson st';
                               trace := trace w ++ [EvClock (utc_now E (trace w)); EvStoreWrite st'] |})).
    { eapply update_same.
      - apply rotated_lookup. exact Hl.
      - unfold dict_get. rewrite lookup_insert_ne by discriminate.
        rewrite lookup_insert_eq. simpl. apply py_eq_refl. }
    rewrite Hsame. split; [reflexivity|].
    simpl. erewrite emitted_app by reflexivity. reflexivity.
Qed.

Lemma C4_update_idempotent_witness :
  let E := Sample.constant_env (Sample.plain 200 None None) in
  let w := Sample.on_disk Sample.one_login in
  let first := update_login_refresh_token E Sample.one_login 0 (PStr "R2") w in
  let second := update_login_refresh_token E (fst first) 0 (PStr "R2") (snd first) in
  second = first
  /\ length (store_writes (emitted w (snd second))) = 1%nat.
Proof.
  intros E w.
  apply (C4_update_idempotent E Sample.one_login 0
           (Sample.login_of (PStr "a") (PStr "R1")) (PStr "R2") w);
    reflexivity.
Defined.

(** ** Resolving the login *)

Lemma first_match_here (login : gmap string pyval) (rest : list (gmap string pyval))
    (id : string) (n : nat) :
  py_str (dict_get login "id") = id ->
  first_match (login :: rest) id n <-> n = 0%nat.
Proof.
  intros Hid. split.
  - intros [_ Hmin]. destruct n as [|n]; [reflexivity|].
    exfalso. apply (Hmin 0%nat login); [lia | reflexivity | exact Hid].
  - intros ->. split.
    + exists login. split; [reflexivity | exact Hid].
    + intros j l Hj. lia.
Qed.

Lemma first_match_later (login : gmap string pyval) (rest : list (gmap string pyval))
    (id : string) (n : nat) :
  py_str (dict_get login "id") <> id ->
  first_match (login :: rest) id n
  <-> exists m, n = S m /\ first_match rest id m.
Proof.
  intros Hid. split.
  - intros [(l & Hl & Hm) Hmin]. destruct n as [|n].
    + simpl in Hl. injection Hl as <-. contradiction.
    + exists n. split; [reflexivity|]. split.
      * exists l. split; [exact Hl | exact Hm].
      * intros j l' Hj Hl'. apply (Hmin (S j) l'); [lia | exact Hl'].
  - intros (m & -> & (l & Hl & Hm) & Hmin). split.
    + exists l. split; [exact Hl | exact Hm].
    + intros j l' Hj Hl'. destruct j as [|j].
      * simpl in Hl'. injection Hl' as <-. exact Hid.
      * apply (Hmin j l'); [lia | exact Hl'].
Qed.

Lemma find_from_first_match (logins : list (gmap string pyval)) (id : string) :
  forall k i,
    find_from logins id k = Some i
    <-> exists n, i = (k + n)%nat /\ first_match logins id n.
Proof.
  induction logins as [|login rest IH]; intros k i; simpl.
  - split; [discriminate|].
    intros (n & _ & (l & Hl & _) & _). discriminate Hl.
  - destruct (String.eqb (py_str (dict_get login "id")) id) eqn:Heq.
    + apply String.eqb_eq in Heq. split.
      * intros H. injection H as <-. exists 0%nat. split; [lia|].
        now apply first_match_here.
      * intros (n & -> & Hn). apply first_match_here in Hn; [|exact Heq].
        subst. f_equal. lia.
    + apply String.eqb_neq in Heq. rewrite IH. split.
      * intros (n & -> & Hn). exists (S n). split; [lia|].
        apply first_match_later; [exact Heq|]. now exists n.
      * intros (n & -> & Hn). apply first_match_later in Hn; [|exact Heq].
        destruct Hn as (m & -> & Hm). exists m. split; [lia | exact Hm].
Qed.

Lemma find_from_none (logins : list (gmap string pyval)) (id : string) :
  forall k,
    find_from logins id k = None
    <-> forall login, In login logins -> py_str (dict_get login "id") <> id.
Proof.
  induction logins as [|login rest IH]; intros k; simpl.
  - split; [intros _ l [] | reflexivity].
  - destruct (String.eqb (py_str (dict_get login "id")) id) eqn:Heq.
    + apply String.eqb_eq in Heq. split; [discriminate|].
      intros H. exfalso. apply (H login); [now left | exact Heq].
    + apply String.eqb_neq in Heq. rewrite IH. split.
      * intros H l [<- | Hin]; [exact Heq | now apply H].
      * intros H l Hin. apply H. now right.
Qed.

(** Every position [find_login] returns names a login of the store. *)
Lemma find_login_in_range (st : store) (lid : option string) (i : nat) :
  find_login st lid = Ok i -> exists login, logins_of st !! i = Some login.
Proof.
  unfold find_login. destruct (opt_truthy lid).
  - destruct (find_from (logins_of st) (default EmptyString lid) 0) as [j|] eqn:Hf;
      [|discriminate].
    intros H. injection H as <-.
    apply find_from_first_match in Hf as (n & -> & (l & Hl & _) & _).
    now exists l.
  - destruct (logins_of st) as [|l rest]; [discriminate|].
    intros H. injection H as <-. now exists l.
Qed.

(** Asked for the empty id in a store whose second login has the empty id,
    [find_login] returns the first login, whose id is another one. *)
Lemma C6_empty_id_counterexample :
  let st := Sample.store_of [Sample.login_of (PStr "a") (PStr "R1");
                             Sample.login_of (PStr EmptyString) (PStr "R2")] in
  first_match (logins_of st) EmptyString 1
  /\ find_login st (Some EmptyString) = Ok 0%nat.
Proof.
  split; [|reflexivity]. split.
  - eexists. split; reflexivity.
  - intros j login Hj Hl. destruct j as [|j]; [|lia].
    simpl in Hl. injection Hl as <-. discriminate.
Qed.

(** C6 (amended): for every store, [find_login] with a non-empty requested
    id returns the first login whose id, converted to a string, equals the
    requested id, and raises a fatal error when no login's id does; with no
    id requested, which includes the empty string, it returns the first
    login of the list, and raises a fatal error when the list is empty or
    missing. *)
Theorem C6_find_login (st : store) :
  (forall id : string, id <> EmptyString ->
     (forall i, find_login st (Some id) = Ok i <-> first_match (logins_of st) id i)
     /\ ((forall login, In login (logins_of st) ->
            py_str (dict_get login "id") <> id) ->
         find_login st (Some id)
         = Raise (SystemExit ("Login with id '" +:+ id
                              +:+ "' not found in token-store.json"))))
  /\ (forall lid : option string, lid = None \/ lid = Some EmptyString ->
        (forall login rest, logins_of st = login :: rest ->
           find_login st lid = Ok 0%nat)
        /\ (store_logins st = None \/ store_logins st = Some [] ->
            find_login st lid
            = Raise (SystemExit "token-store.json does not include any logins"))).
Proof.
  split.
  - intros id Hid.
    assert (Ht : opt_truthy (Some id) = true).
    { simpl. unfold nonempty. destruct (String.eqb id EmptyString) eqn:He; [|reflexivity].
      apply String.eqb_eq in He. contradiction. }
    unfold find_login. rewrite Ht. simpl default. split.
    + intros i.
      destruct (find_from (logins_of st) id 0) as [j|] eqn:Hf.
      * split.
        -- intros H. injection H as <-.
           apply find_from_first_match in Hf as (n & -> & Hn). exact Hn.
        -- intros Hi. f_equal.
           assert (Hf' : find_from (logins_of st) id 0 = Some i).
           { apply find_from_first_match. now exists i. }
           congruence.
      * split; [discriminate|].
        intros Hi.
        assert (Hf' : find_from (logins_of st) id 0 = Some i).
        { apply find_from_first_match. now exists i. }
        congruence.
    + intros Hnone.
      apply (find_from_none (logins_of st) id 0%nat) in Hnone.
      now rewrite Hnone.
  - intros lid Hlid.
    assert (Ht : opt_truthy lid = false) by (destruct Hlid as [-> | ->]; reflexivity).
    unfold find_login. rewrite Ht. split.
    + intros login rest ->. reflexivity.
    + unfold logins_of. intros [-> | ->]; reflexivity.
Qed.

Lemma C6_find_login_witness :
  let st := Sample.store_of [Sample.login_of (PInt 7) (PStr "R1");
                             Sample.login_of (PStr "7") (PStr "R2")] in
  find_login st (Some "7") = Ok 0%nat
  /\ find_login st (Some EmptyString) = Ok 0%nat
  /\ find_login (Sample.store_of []) None
     = Raise (SystemExit "token-store.json does not include any logins").
Proof.
  intros st. split; [|split].
  - destruct (C6_find_login st) as [Hreq _].
    destruct (Hreq "7") as [Hfirst _]; [discriminate|].
    apply Hfirst. split.
    + eexists. split; reflexivity.
    + intros j login Hj. lia.
  - destruct (C6_find_login st) as [_ Hnone].
    destruct (Hnone (Some EmptyString)) as [Hfirst _]; [now right|].
    eapply Hfirst. reflexivity.
  - destruct (C6_find_login (Sample.store_of [])) as [_ Hnone].
    destruct (Hnone None) as [_ Hempty]; [now left|].
    apply Hempty. now right.
Defined.

(** ** The front end *)

Lemma load_ok (E : env) (w : world) (st : store) :
  disk w = FileJson st ->
  load_token_store E w
  = (Ok st, {| disk := disk w; trace := trace w ++ [EvStoreExists; EvStoreRead] |}).
Proof.
  intros Hd. unfold load_token_store, log. simpl. rewrite Hd.
  now rewrite <- app_assoc.
Qed.

(** Past the count and header checks [main] is [perform_refreshes]. *)
Lemma main_validated (E : env) (a : args) (w : world)
    (headers : option (gmap string string)) :
  0 < count a ->
  node_headers_of a = Ok headers ->
  main E a w
  = perform_refreshes E (login_id a) (count a) (preset a) (driver a)
      (options_of E a headers) w.
Proof.
  intros Hc Hh. unfold main.
  destruct (count a <=? 0) eqn:Hle; [apply Z.leb_le in Hle; lia|].
  now rewrite Hh.
Qed.

(** [perform_refreshes] once the store is read and the login resolved. *)
Lemma perform_refreshes_loaded (E : env) (lid : option string) (iterations : Z)
    (preset driver : string) (o : node_options) (w : world)
    (st : store) (i : nat) (login : gmap string pyval) :
  disk w = FileJson st ->
  find_login st lid = Ok i ->
  logins_of st !! i = Some login ->
  perform_refreshes E lid iterations preset driver o w
  = (let token := dict_get login "refreshToken" in
     if negb (truthy token) then
       raise (SystemExit "Selected login does not include a refreshToken field")
     else if negb (member (strip (lower driver)) DRIVERS) then
       raise (SystemExit ("Unsupported driver '" +:+ driver
                          +:+ "'. Expected one of: ['node', 'requests']"))
     else if String.eqb (strip (lower driver)) "node" then
       perform_refreshes_with_node_driver E st i token iterations o
     else
       let* s := build_session E preset in
       refresh_cycles E s i (Z.to_nat iterations) st token)
      {| disk := disk w; trace := trace w ++ [EvStoreExists; EvStoreRead] |}.
Proof.
  intros Hd Hf Hl. unfold perform_refreshes. unfold bind at 1.
  rewrite (load_ok E w st Hd), Hf, Hl. reflexivity.
Qed.

(** C8: an invocation whose count is zero or negative ends in a fatal error
    with the world exactly as it was: no request has been sent, the helper
    has not run, and the token store file has been neither looked up, read
    nor written. *)
Theorem C8_nonpositive_count_rejected (E : env) (a : args) (w : world) :
  count a <= 0 ->
  main E a w = (Raise (SystemExit "--count must be >= 1"), w)
  /\ emitted w (snd (main E a w)) = [].
Proof.
  intros Hc.
  assert (Hm : main E a w = (Raise (SystemExit "--count must be >= 1"), w)).
  { unfold main. apply Z.leb_le in Hc. now rewrite Hc. }
  split; [exact Hm|]. rewrite Hm. apply emitted_refl.
Qed.

Lemma C8_nonpositive_count_rejected_witness :
  let E := Sample.constant_env (Sample.plain 200 None None) in
  let a := Sample.with_count (-3) Sample.base_args in
  let w := Sample.on_disk Sample.one_login in
  main E a w = (Raise (SystemExit "--count must be >= 1"), w)
  /\ emitted w (snd (main E a w)) = [].
Proof.
  intros E a w. apply (C8_nonpositive_count_rejected E a w). simpl. lia.
Defined.

(** C10: when the login that [find_login] resolves has its [refreshToken]
    missing, null or empty, [perform_refreshes] raises a fatal error having
    done nothing but look up and read the store file: no request is sent,
    the helper is not run and the store is not written, whatever the driver
    and the preset. *)
Theorem C10_missing_token_is_fatal (E : env) (lid : option string)
    (iterations : Z) (preset driver : string) (o : node_options) (w : world)
    (st : store) (i : nat) (login : gmap string pyval) :
  disk w = FileJson st ->
  find_login st lid = Ok i ->
  logins_of st !! i = Some login ->
  (login !! "refreshToken" = None
   \/ login !! "refreshToken" = Some PNone
   \/ login !! "refreshToken" = Some (PStr EmptyString)) ->
  let run := perform_refreshes E lid iterations preset driver o w in
  fst run = Raise (SystemExit "Selected login does not include a refreshToken field")
  /\ disk (snd run) = disk w
  /\ emitted w (snd run) = [EvStoreExists; EvStoreRead]
  /\ http_requests (emitted w (snd run)) = []
  /\ helper_runs (emitted w (snd run)) = []
  /\ store_writes (emitted w (snd run)) = [].
Proof.
  intros Hd Hf Hl Htok run.
  assert (Hfalsy : truthy (dict_get login "refreshToken") = false).
  { unfold dict_get. destruct Htok as [-> | [-> | ->]]; reflexivity. }
  assert (Hrun : run = (Raise (SystemExit "Selected login does not include a refreshToken field"),
                        {| disk := disk w; trace := trace w ++ [EvStoreExists; EvStoreRead] |})).
  { subst run. rewrite (perform_refreshes_loaded E _ _ _ _ _ w st i login Hd Hf Hl).
    cbv zeta. now rewrite Hfalsy. }
  rewrite Hrun. simpl.
  erewrite emitted_app by reflexivity.
  repeat split.
Qed.

Lemma C10_missing_token_is_fatal_witness :
  let E := Sample.constant_env (Sample.plain 200 None None) in
  let st := Sample.store_of [Sample.login_of (PStr "a") (PStr EmptyString)] in
  let run := perform_refreshes E None 1 "python" "node"
               (options_of E Sample.base_args None) (Sample.on_disk st) in
  fst run = Raise (SystemExit "Selected login does not include a refreshToken field")
  /\ disk (snd run) = disk (Sample.on_disk st)
  /\ emitted (Sample.on_disk st) (snd run) = [EvStoreExists; EvStoreRead]
  /\ http_requests (emitted (Sample.on_disk st) (snd run)) = []
  /\ helper_runs (emitted (Sample.on_disk st) (snd run)) = []
  /\ store_writes (emitted (Sample.on_disk st) (snd run)) = [].
Proof.
  intros E st.
  apply (C10_missing_token_is_fatal E None 1 "python" "node"
           (options_of E Sample.base_args None) (Sample.on_disk st) st 0
           (Sample.login_of (PStr "a") (PStr EmptyString)));
    try reflexivity.
  right. right. reflexivity.
Defined.

(** An unrecognised driver is reported only after the token store file has
    been looked up and read; and with the helper driver an unrecognised
    preset is not reported at all, the run completes. *)
Lemma C7_late_validation_counterexample :
  let E := Sample.constant_env (Sample.plain 200 None None) in
  let w := Sample.on_disk Sample.one_login in
  let bad_driver := Sample.with_driver "bogus" Sample.base_args in
  let bad_preset := Sample.with_preset "bogus" (Sample.with_driver "node" Sample.base_args) in
  member (strip (lower (driver bad_driver))) DRIVERS = false
  /\ fst (main E bad_driver w)
     = Raise (SystemExit "Unsupported driver 'bogus'. Expected one of: ['node', 'requests']")
  /\ store_accesses (emitted w (snd (main E bad_driver w)))
     = [EvStoreExists; EvStoreRead]
  /\ member (strip (lower (preset bad_preset))) SESSION_PRESETS = false
  /\ fst (main E bad_preset w) = Ok (Sample.one_login, PStr "R1").
Proof. vm_compute. repeat split. Qed.

(** C7 (amended): for every invocation that passes the count and header
    checks, whose token store loads and whose login resolves with a
    non-empty refresh token: an unrecognised driver ends the run with a
    fatal error after the store has been looked up and read and before any
    request, helper run or write; so does an unrecognised preset when the
    driver is [requests]; and when the driver is [node] the run is the
    helper driver's, in which the preset plays no part. *)
Theorem C7_driver_and_preset_checked_after_load (E : env) (a : args) (w : world)
    (headers : option (gmap string string)) (st : store) (i : nat)
    (login : gmap string pyval) :
  0 < count a ->
  node_headers_of a = Ok headers ->
  disk w = FileJson st ->
  find_login st (login_id a) = Ok i ->
  logins_of st !! i = Some login ->
  truthy (dict_get login "refreshToken") = true ->
  let loaded := {| disk := disk w; trace := trace w ++ [EvStoreExists; EvStoreRead] |} in
  (member (strip (lower (driver a))) DRIVERS = false ->
   main E a w
   = (Raise (SystemExit ("Unsupported driver '" +:+ driver a
                         +:+ "'. Expected one of: ['node', 'requests']")),
      loaded))
  /\ (strip (lower (driver a)) = "requests" ->
      member (strip (lower (preset a))) SESSION_PRESETS = false ->
      main E a w
      = (Raise (SystemExit ("Unsupported session preset '" +:+ preset a
                            +:+ "'. Expected one of: ['node', 'python']")),
         loaded))
  /\ (strip (lower (driver a)) = "node" ->
      main E a w
      = perform_refreshes_with_node_driver E st i (dict_get login "refreshToken")
          (count a) (options_of E a headers) loaded).
Proof.
  intros Hc Hh Hd Hf Hl Ht loaded.
  rewrite (main_validated E a w headers Hc Hh).
  rewrite (perform_refreshes_loaded E _ _ _ _ _ w st i login Hd Hf Hl).
  cbv zeta. rewrite Ht. change (negb true) with false. cbv iota.
  split; [|split].
  - intros Hm. now rewrite Hm.
  - intros Hdrv Hm. rewrite Hdrv. simpl.
    unfold bind, build_session. now rewrite Hm.
  - intros Hdrv. rewrite Hdrv. reflexivity.
Qed.

Lemma C7_driver_and_preset_checked_after_load_witness :
  let E := Sample.constant_env (Sample.plain 200 None None) in
  let w := Sample.on_disk Sample.one_login in
  main E (Sample.with_driver "bogus" Sample.base_args) w
  = (Raise (SystemExit "Unsupported driver 'bogus'. Expected one of: ['node', 'requests']"),
     {| disk := disk w; trace := trace w ++ [EvStoreExists; EvStoreRead] |}).
Proof.
  intros E w.
  refine (proj1 (C7_driver_and_preset_checked_after_load E
                   (Sample.with_driver "bogus" Sample.base_args) w None
                   Sample.one_login 0 (Sample.login_of (PStr "a") (PStr "R1"))
                   _ _ _ _ _ _) _);
    reflexivity.
Defined.

(** ** What a run can add to the trace *)

Section Adds.

(** A property every added event has. *)
Variable P : event -> Prop.

Lemma adds_refl (w : world) : adds P w w.
Proof. exists []. split; [now rewrite app_nil_r | constructor]. Qed.

Lemma adds_trans (w1 w2 w3 : world) : adds P w1 w2 -> adds P w2 w3 -> adds P w1 w3.
Proof.
  intros (e1 & H1 & F1) (e2 & H2 & F2). exists (e1 ++ e2). split.
  - rewrite H2, H1. now rewrite app_assoc.
  - apply Forall_app. now split.
Qed.

Lemma adds_log (e : event) (w : world) : P e -> adds P w (log e w).
Proof. intros He. exists [e]. split; [reflexivity | now constructor]. Qed.

Lemma adding_ret {A} (a : A) : adding P (ret a).
Proof. intros w. apply adds_refl. Qed.

Lemma adding_raise {A} (e : exn) : adding P (@raise A e).
Proof. intros w. apply adds_refl. Qed.

Lemma adding_bind {A B} (m : M A) (k : A -> M B) :
  adding P m -> (forall a, adding P (k a)) -> adding P (bind m k).
Proof.
  intros Hm Hk w. unfold bind. specialize (Hm w).
  destruct (m w) as [[a|e] w1]; simpl in *.
  - eapply adds_trans; [exact Hm | apply Hk].
  - exact Hm.
Qed.

Hypothesis P_store : forall e, is_store_access e = true -> P e.
Hypothesis P_clock : forall ts, P (EvClock ts).
Hypothesis P_http : forall e, is_http e = true -> P e.

Variable E : env.

Lemma adding_load : adding P (load_token_store E).
Proof.
  intros w. unfold load_token_store.
  assert (H1 : adds P w (log EvStoreExists w)) by (apply adds_log, P_store; reflexivity).
  assert (H2 : adds P (log EvStoreExists w) (log EvStoreRead (log EvStoreExists w)))
    by (apply adds_log, P_store; reflexivity).
  destruct (disk w); simpl; [exact H1 | |]; eapply adds_trans; eassumption.
Qed.

Lemma adds_update (st : store) (i : nat) (tok : pyval) (w : world) :
  adds P w (snd (update_login_refresh_token E st i tok w)).
Proof.
  unfold update_login_refresh_token.
  destruct (negb (truthy tok)); [apply adds_refl|].
  destruct (logins_of st !! i) as [login|]; [|apply adds_refl].
  destruct (py_eq (dict_get login "refreshToken") tok); [apply adds_refl|].
  simpl. eexists [_; _]. split.
  - now rewrite <- app_assoc.
  - repeat constructor; [apply P_clock | apply P_store; reflexivity].
Qed.

Lemma adding_refresh_once (s : session) (token : pyval) :
  adding P (refresh_once E s token).
Proof.
  intros w.
  destruct (refresh_once_http E s token w) as (evs & Htr & _ & Hhttp & _).
  exists evs. split; [exact Htr|].
  eapply Forall_impl; [exact Hhttp | exact P_http].
Qed.

Lemma adding_refresh_cycle (s : session) (i : nat) (st : store) (token : pyval) :
  adding P (refresh_cycle E s i st token).
Proof.
  unfold refresh_cycle.
  apply adding_bind; [apply adding_refresh_once|]. intros resp.
  apply adding_bind.
  { destruct (negb (status_code resp =? 200)); [|apply adding_ret].
    unfold raise_for_status.
    destruct ((400 <=? status_code resp) && (status_code resp <? 600));
      [apply adding_raise | apply adding_ret]. }
  intros _. apply adding_bind.
  { unfold response_json. destruct (json_body resp); [apply adding_ret | apply adding_raise]. }
  intros payload.
  destruct (truthy (dict_get payload "refresh_token")); [|apply adding_ret].
  intros w.
  pose proof (adds_update st i (dict_get payload "refresh_token") w) as H.
  destruct (update_login_refresh_token E st i (dict_get payload "refresh_token") w).
  exact H.
Qed.

Lemma adding_refresh_cycles (s : session) (i : nat) (n : nat) :
  forall st token, adding P (refresh_cycles E s i n st token).
Proof.
  induction n as [|n IH]; intros st token; simpl.
  - apply adding_ret.
  - apply adding_bind; [apply adding_refresh_cycle|].
    intros [st' token']. apply IH.
Qed.

Lemma adding_build_session (preset : string) : adding P (build_session E preset).
Proof.
  unfold build_session.
  destruct (negb (member (strip (lower preset)) SESSION_PRESETS)); [apply adding_raise|].
  destruct (String.eqb (strip (lower preset)) "node"); apply adding_ret.
Qed.

Lemma adds_apply_results (i : nat) (results : list (gmap string pyval)) :
  forall st token w, adds P w (snd (apply_results E i results st token w)).
Proof.
  induction results as [|entry rest IH]; intros st token w; simpl.
  - apply adds_refl.
  - destruct (truthy (dict_get entry "refreshToken")); [|apply IH].
    pose proof (adds_update st i (dict_get entry "refreshToken") w) as H.
    destruct (update_login_refresh_token E st i (dict_get entry "refreshToken") w)
      as [st' w'].
    eapply adds_trans; [exact H | apply IH].
Qed.

Variable iterations : Z.
Variable o : node_options.

Hypothesis P_helper_exists : P EvHelperExists.
Hypothesis P_helper_run :
  forall token r, P (EvHelperRun (build_payload token iterations o) r).
Hypothesis P_helper_failed :
  forall token cls, P (EvHelperFailed (build_payload token iterations o) cls).

Lemma adding_node_driver (st : store) (i : nat) (token : pyval) :
  adding P (perform_refreshes_with_node_driver E st i token iterations o).
Proof.
  intros w. unfold perform_refreshes_with_node_driver.
  assert (H1 : adds P w (log EvHelperExists w)) by (apply adds_log, P_helper_exists).
  destruct (negb (helper_present E (trace w))); [exact H1|].
  set (payload := build_payload token iterations o).
  destruct (spawn_error E (trace (log EvHelperExists w)) payload) as [cls|].
  { eapply adds_trans; [exact H1|]. apply adds_log, P_helper_failed. }
  set (result := run_helper E (trace (log EvHelperExists w)) payload).
  assert (H2 : adds P w (log (EvHelperRun payload result) (log EvHelperExists w))).
  { eapply adds_trans; [exact H1|]. apply adds_log, P_helper_run. }
  destruct (stdout result) as [|raw|r|]; try exact H2.
  destruct (negb (returncode result =? 0)
            || negb (truthy (dict_get (nr_fields r) "success"))); [exact H2|].
  pose proof (adds_apply_results i (default [] (nr_results r)) st token
                (log (EvHelperRun payload result) (log EvHelperExists w))) as H3.
  destruct (apply_results E i (default [] (nr_results r)) st token
              (log (EvHelperRun payload result) (log EvHelperExists w))) as [res w3].
  eapply adds_trans; [exact H2 | exact H3].
Qed.

Lemma adding_perform_refreshes (lid : option string) (preset driver : string) :
  adding P (perform_refreshes E lid iterations preset driver o).
Proof.
  unfold perform_refreshes.
  apply adding_bind; [apply adding_load|]. intros st.
  destruct (find_login st lid) as [i|e]; [|apply adding_raise].
  destruct (negb (truthy _)); [apply adding_raise|].
  destruct (negb (member _ DRIVERS)); [apply adding_raise|].
  destruct (String.eqb _ "node"); [apply adding_node_driver|].
  apply adding_bind; [apply adding_build_session|].
  intros s. apply adding_refresh_cycles.
Qed.

End Adds.

(** ** Header overrides *)

Lemma space_not_colon (c : ascii) : is_space c = true -> Ascii.eqb c ":" = false.
Proof.
  destruct (Ascii.eqb c ":") eqn:Hc; [|reflexivity].
  apply Ascii.eqb_eq in Hc. subst. discriminate.
Qed.

Lemma has_colon_lstrip (h : string) : has_colon (lstrip h) = has_colon h.
Proof.
  induction h as [|c h IH]; simpl; [reflexivity|].
  destruct (is_space c) eqn:Hs; [|reflexivity].
  now rewrite (space_not_colon c Hs).
Qed.

Lemma rstrip_empty_no_colon (h : string) :
  rstrip h = EmptyString -> has_colon h = false.
Proof.
  induction h as [|c h IH]; simpl; [reflexivity|].
  destruct (rstrip h) eqn:Hr; [|discriminate].
  destruct (is_space c) eqn:Hs; [|discriminate].
  intros _. rewrite (space_not_colon c Hs). now apply IH.
Qed.

(** A value with a colon is never blank. *)
Lemma has_colon_not_blank (h : string) :
  has_colon h = true -> strip h <> EmptyString.
Proof.
  intros Hc Hs. unfold strip in Hs. apply rstrip_empty_no_colon in Hs.
  rewrite has_colon_lstrip in Hs. congruence.
Qed.

Lemma has_colon_app (k v : string) : has_colon (k +:+ ":" +:+ v) = true.
Proof.
  induction k as [|c k IH]; simpl; [reflexivity|].
  rewrite IH. apply orb_true_r.
Qed.

(** [split_colon] cuts at the first colon. *)
Lemma split_colon_app (k v : string) :
  has_colon k = false -> split_colon (k +:+ ":" +:+ v) = Some (k, v).
Proof.
  induction k as [|c k IH]; simpl; [reflexivity|].
  intros H. apply orb_false_iff in H as [Hc Hk].
  rewrite Hc. now rewrite (IH Hk).
Qed.

(** The test that skips a header. *)
Lemma skipped_iff_blank (h : string) :
  negb (nonempty h) || String.eqb (strip h) EmptyString = true
  <-> strip h = EmptyString.
Proof.
  unfold nonempty. rewrite negb_involutive. split.
  - intros H. apply orb_true_iff in H as [H | H]; apply String.eqb_eq in H.
    + now subst.
    + exact H.
  - intros H. apply orb_true_iff. right. now apply String.eqb_eq.
Qed.

Lemma parse_node_headers_malformed (hs : list string) (h : string) :
  In h hs -> strip h <> EmptyString -> has_colon h = false ->
  forall acc,
    parse_node_headers hs acc
    = Raise (SystemExit "--node-header values must be in 'Key: Value' format").
Proof.
  intros Hin Hnb Hnc.
  induction hs as [|h0 rest IH]; intros acc; [destruct Hin|].
  simpl.
  destruct (negb (nonempty h0) || String.eqb (strip h0) EmptyString) eqn:Hskip.
  - apply skipped_iff_blank in Hskip.
    destruct Hin as [-> | Hin]; [contradiction | now apply IH].
  - destruct (has_colon h0) eqn:Hc0; simpl; [|reflexivity].
    destruct (split_colon h0) as [[k v]|]; [|reflexivity].
    destruct Hin as [-> | Hin]; [congruence | now apply IH].
Qed.

Lemma parse_single_header (k v : string) :
  has_colon k = false ->
  parse_node_headers [k +:+ ":" +:+ v] ∅ = Ok {[strip k := strip v]}.
Proof.
  intros Hk. simpl.
  destruct (negb (nonempty (k +:+ ":" +:+ v))
            || String.eqb (strip (k +:+ ":" +:+ v)) EmptyString) eqn:Hskip.
  - apply skipped_iff_blank in Hskip.
    exfalso. revert Hskip. apply has_colon_not_blank, has_colon_app.
  - rewrite has_colon_app. simpl. rewrite (split_colon_app k v Hk).
    now rewrite insert_empty.
Qed.

Lemma config_nonempty_headers (c : node_config) (h : gmap string string) :
  cfg_headers c = Some h -> config_nonempty c = true.
Proof.
  destruct c as [m t cl cn tl hd]. simpl. intros ->.
  destruct m, t, cl, cn, tl; reflexivity.
Qed.

(** Every helper run of [main] receives the payload built from the parsed
    headers. *)
Lemma main_helper_runs (E : env) (a : args) (w : world) (p : node_payload) :
  In p (helper_runs (emitted w (snd (main E a w)))) ->
  exists headers token,
    node_headers_of a = Ok headers
    /\ p = build_payload token (count a) (options_of E a headers).
Proof.
  unfold main.
  destruct (count a <=? 0).
  { simpl. rewrite emitted_refl. intros []. }
  destruct (node_headers_of a) as [headers|e].
  2:{ simpl. rewrite emitted_refl. intros []. }
  set (o := options_of E a headers).
  set (P := fun e => match e with
                     | EvHelperRun p' _ | EvHelperFailed p' _ =>
                         exists token, p' = build_payload token (count a) o
                     | _ => True
                     end).
  assert (Hadd : adding P (perform_refreshes E (login_id a) (count a)
                             (preset a) (driver a) o)).
  { apply adding_perform_refreshes.
    - intros e. destruct e; try discriminate; intros _; exact I.
    - intros ts. exact I.
    - intros e. destruct e; try discriminate; intros _; exact I.
    - exact I.
    - intros token r. now exists token.
    - intros token cls. now exists token. }
  destruct (Hadd w) as (evs & Htr & Hall).
  rewrite (emitted_app _ _ _ Htr).
  intros Hin. exists headers.
  clear Htr. induction Hall as [|e evs He Hall IH]; [destruct Hin|].
  unfold helper_runs in Hin. simpl in Hin.
  destruct e; try (apply IH; exact Hin);
    (destruct Hin as [<- | Hin]; [|apply IH; exact Hin]);
    destruct He as (token & ->); now exists token.
Qed.

(** A header value of one space has no colon, and the run goes through to
    the helper and completes: blank values are skipped, not rejected. *)
Lemma C9_blank_header_counterexample :
  let E := Sample.constant_env (Sample.plain 200 None None) in
  let w := Sample.on_disk Sample.one_login in
  let a := Sample.with_headers [" "] (Sample.with_driver "node" Sample.base_args) in
  has_colon " " = false
  /\ fst (main E a w) = Ok (Sample.one_login, PStr "R1")
  /\ helper_runs (emitted w (snd (main E a w)))
     = [{| np_refreshToken := PStr "R1"; np_iterations := 1; np_config := None |}].
Proof. vm_compute. repeat split. Qed.

(** C9 (amended): for every invocation whose only [--node-header] flag is
    ["X: 1"], every JSON argument handed to the helper has a [config] whose
    [headers] is exactly [{"X": "1"}]; in general a single flag value is cut
    at its first colon and both parts are stripped of surrounding
    whitespace; and a flag value that is not blank and contains no colon
    ends the run with a fatal error before anything else happens.  (A blank
    value is skipped.) *)
Theorem C9_node_header (E : env) (a : args) (w : world) :
  (node_headers a = Some ["X: 1"] ->
   forall p, In p (helper_runs (emitted w (snd (main E a w)))) ->
     exists c, np_config p = Some c /\ cfg_headers c = Some {["X" := "1"]})
  /\ (forall k v, has_colon k = false ->
        node_headers a = Some [k +:+ ":" +:+ v] ->
        node_headers_of a = Ok (Some {[strip k := strip v]}))
  /\ (forall hs h, 0 < count a -> node_headers a = Some hs -> In h hs ->
        strip h <> EmptyString -> has_colon h = false ->
        main E a w
        = (Raise (SystemExit "--node-header values must be in 'Key: Value' format"), w)).
Proof.
  split; [|split].
  - intros Hh p Hin.
    apply main_helper_runs in Hin as (headers & token & Hparsed & ->).
    unfold node_headers_of in Hparsed. rewrite Hh in Hparsed.
    change "X: 1" with ("X" +:+ ":" +:+ " 1") in Hparsed.
    rewrite parse_single_header in Hparsed by reflexivity.
    injection Hparsed as <-.
    change (strip "X") with "X". change (strip " 1") with "1".
    assert (Hb : build_headers (options_of E a (Some {["X" := "1"]}))
                 = Some {["X" := "1"]}).
    { unfold build_headers. simpl.
      destruct (decide ({["X" := "1"]} = (∅ : gmap string string))) as [Hemp|_];
        [|reflexivity].
      exfalso. revert Hemp. apply map_non_empty_singleton. }
    unfold build_payload. simpl np_config.
    assert (Hne : config_nonempty (build_config (options_of E a (Some {["X" := "1"]})))
                  = true).
    { apply (config_nonempty_headers _ {["X" := "1"]}). exact Hb. }
    rewrite Hne. eexists. split; [reflexivity|]. exact Hb.
  - intros k v Hk Hh. unfold node_headers_of. rewrite Hh.
    now rewrite (parse_single_header k v Hk).
  - intros hs h Hc Hh Hin Hnb Hnc. unfold main.
    destruct (count a <=? 0) eqn:Hle; [apply Z.leb_le in Hle; lia|].
    unfold node_headers_of. rewrite Hh.
    destruct hs as [|h0 rest]; [destruct Hin|].
    now rewrite (parse_node_headers_malformed (h0 :: rest) h Hin Hnb Hnc).
Qed.

Lemma C9_node_header_witness :
  let E := Sample.constant_env (Sample.plain 200 None None) in
  let w := Sample.on_disk Sample.one_login in
  let a := Sample.with_headers ["X: 1"] (Sample.with_driver "node" Sample.base_args) in
  (exists p, helper_runs (emitted w (snd (main E a w))) = [p]
     /\ exists c, np_config p = Some c /\ cfg_headers c = Some {["X" := "1"]})
  /\ main E (Sample.with_headers ["X-Only"] Sample.base_args) w
     = (Raise (SystemExit "--node-header values must be in 'Key: Value' format"), w).
Proof.
  intros E w a. split.
  - exists {| np_refreshToken := PStr "R1"; np_iterations := 1;
              np_config := Some (build_config (options_of E a (Some {["X" := "1"]}))) |}.
    split; [vm_compute; reflexivity|].
    apply (proj1 (C9_node_header E a w) eq_refl).
    vm_compute. left. reflexivity.
  - apply (proj2 (proj2 (C9_node_header E
                           (Sample.with_headers ["X-Only"] Sample.base_args) w))
             ["X-Only"] "X-Only").
    + reflexivity.
    + reflexivity.
    + now left.
    + discriminate.
    + reflexivity.
Defined.

(** C5: the run below is one the property excludes.  The only answer has
    status 201 and a JSON body with a new refresh token;
    [raise_for_status] does not raise for it, so the cycle goes on as after
    a 200: the run completes and the store on disk holds the new token. *)
Lemma C5_non_error_status_is_not_fatal :
  let answer := Sample.plain 201 None (Some {["refresh_token" := PStr "R2"]}) in
  let E := Sample.constant_env answer in
  let w := Sample.on_disk Sample.one_login in
  let run := main E Sample.base_args w in
  http_responses (emitted w (snd run)) = [answer]
  /\ is_redirect answer = false
  /\ status_code answer <> 200
  /\ (exists st' login',
        fst run = Ok (st', PStr "R2")
        /\ disk (snd run) = FileJson st'
        /\ logins_of st' !! 0%nat = Some login'
        /\ login' !! "refreshToken" = Some (PStr "R2"))
  /\ length (store_writes (emitted w (snd run))) = 1%nat.
Proof.
  vm_compute. split; [reflexivity|]. split; [reflexivity|].
  split; [discriminate|]. split; [|reflexivity].
  eexists _, _. split; [reflexivity|]. split; [reflexivity|].
  split; [reflexivity|]. vm_compute. reflexivity.
Qed.

(** What [perform_refreshes] does guarantee: a cycle whose final answer has
    a status of the client or server error class raises the HTTP error for
    that answer, with the store file as it was before the cycle. *)
Lemma refresh_cycle_error_status (E : env) (s : session) (i : nat) (st : store)
    (token : pyval) (w : world) (resp : response) :
  fst (refresh_once E s token w) = Ok resp ->
  400 <= status_code resp < 600 ->
  fst (refresh_cycle E s i st token w) = Raise (HTTPError resp)
  /\ disk (snd (refresh_cycle E s i st token w)) = disk w
  /\ store_writes (emitted w (snd (refresh_cycle E s i st token w))) = [].
Proof.
  intros Hok Hst. unfold refresh_cycle, bind.
  destruct (refresh_once_http E s token w) as (evs & Htr & Hdisk & Hhttp & _).
  destruct (refresh_once E s token w) as [[resp'|e] w1] eqn:Hrun; simpl in *;
    [|discriminate].
  injection Hok as ->.
  assert (H200 : negb (status_code resp =? 200) = true).
  { apply negb_true_iff, Z.eqb_neq. lia. }
  rewrite H200. unfold raise_for_status.
  assert (Herr : (400 <=? status_code resp) && (status_code resp <? 600) = true).
  { apply andb_true_iff. split; [apply Z.leb_le | apply Z.ltb_lt]; lia. }
  rewrite Herr. simpl. split; [reflexivity|]. split; [exact Hdisk|].
  rewrite (emitted_app _ _ _ Htr).
  apply (http_only evs Hhttp).
Qed.

(** * Further properties of the code *)

(** ** The redirect loop, in general *)

(** X1: whatever the server answers and whichever library call fails,
    [refresh_once] calls [session.get] between one and six times, does
    nothing else, and leaves the store file alone.  When it returns a
    response, that response is the last one received, it is not a redirect,
    every response before it was one, and every call was answered.  When it
    raises, every response received was a redirect, and what it raises is
    one of three things: the error for exceeded redirects, after six
    answered calls; the exception of a [session.get] that raised, which was
    the last call; or the exception of an [urljoin] that rejected the
    Location of the last response. *)
Theorem X1_refresh_once_shape (E : env) (s : session) (token : pyval) (w : world) :
  let run := refresh_once E s token w in
  let evs := emitted w (snd run) in
  disk (snd run) = disk w
  /\ Forall (fun e => is_http e = true) evs
  /\ (1 <= length evs <= MAX_REDIRECTS + 1)%nat
  /\ match fst run with
     | Ok resp =>
         is_redirect resp = false
         /\ http_failures evs = []
         /\ exists earlier, http_responses evs = earlier ++ [resp]
              /\ Forall (fun r => is_redirect r = true) earlier
     | Raise e =>
         Forall (fun r => is_redirect r = true) (http_responses evs)
         /\ ((e = RuntimeError "Exceeded maximum redirect attempts during refresh"
              /\ http_failures evs = []
              /\ length (http_responses evs) = (MAX_REDIRECTS + 1)%nat)
             \/ (exists answered q cls,
                   e = OtherException cls
                   /\ evs = answered ++ [EvHttpFailed q cls]
                   /\ http_failures answered = []
                   /\ request_error E (trace w ++ answered) q = Some cls)
             \/ (exists cls earlier q r,
                   e = OtherException cls
                   /\ evs = earlier ++ [EvHttpGet q r]
                   /\ http_failures evs = []
                   /\ urljoin_error E (req_url q) (default EmptyString (location r))
                      = Some cls))
     end.
Proof.
  intros run evs. subst run evs.
  destruct (refresh_once_http E s token w) as (evs & Htr' & Hdisk & Hhttp & Hlen).
  destruct (refresh_once_run E s token w)
    as (hops & tail & Htr & _ & _ & _ & Hres).
  assert (Hevs : evs = map hop_event hops ++ tail).
  { rewrite Htr in Htr'. now apply app_inv_head in Htr'. }
  rewrite (emitted_app _ _ _ Htr').
  split; [exact Hdisk|]. split; [exact Hhttp|]. split; [exact Hlen|].
  subst evs. rewrite http_responses_app, http_failures_app,
    http_responses_hops, http_failures_hops.
  destruct (fst (refresh_once E s token w)) as [resp|e].
  - destruct Hres as (-> & pre & q' & Hh & Hnr & Hpre).
    split; [exact Hnr|]. split; [reflexivity|].
    exists (map snd pre). simpl. rewrite app_nil_r, Hh, map_app.
    split; [reflexivity|]. apply Forall_map. exact Hpre.
  - destruct Hres as (Hall & Hcase).
    destruct Hcase as [(He & -> & Hl) | [(q & cls & He & -> & Hq)
                                        | (cls & pre & q & r & He & -> & Hh & Hj)]];
      simpl; rewrite ?app_nil_r.
    + split; [apply Forall_map; exact Hall|]. left.
      split; [exact He|]. split; [reflexivity|]. now rewrite length_map.
    + split; [apply Forall_map; exact Hall|]. right. left.
      exists (map hop_event hops), q, cls.
      split; [exact He|]. split; [reflexivity|].
      split; [apply http_failures_hops | exact Hq].
    + split; [apply Forall_map; exact Hall|]. right. right.
      exists cls, (map hop_event pre), q, r.
      split; [exact He|]. split; [now rewrite Hh, map_app|].
      split; [reflexivity | exact Hj].
Qed.

Lemma refresh_attempts_chain (E : env) (s : session) (n : nat) :
  forall url params w,
  exists (hops : list (request * response)) (tail : list event),
    trace (snd (refresh_attempts E s n url params w))
      = trace w ++ map hop_event hops ++ tail
    /\ chained E url hops
    /\ Forall (fun h => req_headers h.1 = session_headers s) hops
    /\ (tail = []
        \/ exists q cls, tail = [EvHttpFailed q cls]
             /\ req_url q = chain_end E url hops
             /\ req_headers q = session_headers s).
Proof.
  induction n as [|n IH]; intros url params w.
  - exists [], []. simpl. rewrite app_nil_r.
    split; [reflexivity|]. split; [exact I|]. split; [constructor | now left].
  - cbn [refresh_attempts].
    set (req := {| req_url := url; req_params := params;
                   req_headers := session_headers s |}).
    destruct (request_error E (trace w) req) as [cls|].
    { exists [], [EvHttpFailed req cls]. simpl.
      split; [reflexivity|]. split; [exact I|]. split; [constructor|].
      right. now exists req, cls. }
    set (resp := respond E (trace w) req).
    assert (Hone : exists (hops : list (request * response)) (tail : list event),
               trace (log (EvHttpGet req resp) w)
               = trace w ++ map hop_event hops ++ tail
               /\ chained E url hops
               /\ Forall (fun h => req_headers h.1 = session_headers s) hops
               /\ (tail = []
                   \/ exists q cls, tail = [EvHttpFailed q cls]
                        /\ req_url q = chain_end E url hops
                        /\ req_headers q = session_headers s)).
    { exists [(req, resp)], []. simpl.
      split; [reflexivity|]. split; [split; [reflexivity | exact I]|].
      split; [repeat constructor | now left]. }
    destruct (is_redirect resp); [|exact Hone].
    destruct (urljoin_error E url (default EmptyString (location resp)));
      [exact Hone|].
    destruct (IH (urljoin E url (default EmptyString (location resp))) None
                (log (EvHttpGet req resp) w))
      as (hops & tail & Htr & Hch & Hhd & Htail).
    exists ((req, resp) :: hops), tail.
    split; [rewrite Htr; simpl; now rewrite <- app_assoc|].
    split; [simpl; split; [reflexivity | exact Hch]|].
    split; [constructor; [reflexivity | exact Hhd]|exact Htail].
Qed.

(** X2: the calls of [session.get] in one [refresh_once] form a chain that
    starts at the token URL: each later call, answered or not, goes to
    [urljoin] of the previous request's URL and the Location of the answer
    to it, and every call carries the session's headers.  Only the last
    call can be one that raised. *)
Theorem X2_redirect_chain (E : env) (s : session) (token : pyval) (w : world) :
  exists (hops : list (request * response)) (tail : list event),
    emitted w (snd (refresh_once E s token w)) = map hop_event hops ++ tail
    /\ chained E TOKEN_URL hops
    /\ Forall (fun h => req_headers h.1 = session_headers s) hops
    /\ (tail = []
        \/ exists q cls, tail = [EvHttpFailed q cls]
             /\ req_url q = chain_end E TOKEN_URL hops
             /\ req_headers q = session_headers s).
Proof.
  unfold refresh_once.
  destruct (refresh_attempts_chain E s (MAX_REDIRECTS + 1) TOKEN_URL
              (Some [("grant_type", PStr "refresh_token"); ("refresh_token", token)]) w)
    as (hops & tail & Htr & Hch & Hhd & Htail).
  exists hops, tail. rewrite (emitted_app _ _ _ Htr). auto.
Qed.

(** ** The store across a run *)

Lemma keeps_rest_refl (i : nat) (st : store) : keeps_rest i st st.
Proof.
  split; [reflexivity|]. split; [reflexivity|].
  intros login login' H1 H2 k _ _. congruence.
Qed.

Lemma keeps_rest_trans (i : nat) (st1 st2 st3 : store) :
  keeps_rest i st1 st2 -> keeps_rest i st2 st3 -> keeps_rest i st1 st3.
Proof.
  intros (L1 & O1 & K1) (L2 & O2 & K2). split; [congruence|]. split.
  - intros j Hj. rewrite O2 by exact Hj. now apply O1.
  - intros login login' H1 H3 k Hk1 Hk2.
    assert (Hlt : (i < length (logins_of st2))%nat).
    { rewrite L1. eapply lookup_lt_Some. exact H1. }
    apply lookup_lt_is_Some_2 in Hlt as [mid Hmid].
    rewrite (K2 mid login' Hmid H3 k Hk1 Hk2).
    now apply (K1 login mid H1 Hmid).
Qed.

Lemma keeps_rest_rotated (i : nat) (st : store) (login : gmap string pyval)
    (tok : pyval) (ts : string) :
  logins_of st !! i = Some login ->
  keeps_rest i st (rotated st i login tok ts).
Proof.
  intros Hl. split; [|split].
  - unfold rotated, logins_of at 1. simpl. apply length_insert.
  - intros j Hj. unfold rotated, logins_of at 1. simpl.
    apply list_lookup_insert_ne. congruence.
  - intros l l' H1 H2 k Hk1 Hk2.
    rewrite (rotated_lookup st i login tok ts Hl) in H2.
    injection H2 as <-. rewrite Hl in H1. injection H1 as <-.
    rewrite lookup_insert_ne by congruence.
    now rewrite lookup_insert_ne by congruence.
Qed.

(** What one call of [update_login_refresh_token] adds to the trace. *)
Lemma update_emits (E : env) (st : store) (i : nat) (tok : pyval) (w : world) :
  let r := update_login_refresh_token E st i tok w in
  (r = (st, w))
  \/ (exists login,
        logins_of st !! i = Some login
        /\ r = (rotated st i login tok (utc_now E (trace w)),
                {| disk := FileJson (rotated st i login tok (utc_now E (trace w)));
                   trace := trace w ++ [EvClock (utc_now E (trace w));
                                        EvStoreWrite (rotated st i login tok (utc_now E (trace w)))] |})).
Proof.
  intros r. subst r.
  destruct (truthy tok) eqn:Ht; [|left; now apply update_falsy].
  destruct (logins_of st !! i) as [login|] eqn:Hl.
  - destruct (py_eq (dict_get login "refreshToken") tok) eqn:Heq.
    + left. now apply (update_same E st i login).
    + right. exists login. split; [reflexivity|]. now apply update_changes.
  - left. unfold update_login_refresh_token. now rewrite Ht, Hl.
Qed.

Lemma update_keeps_sync (E : env) (st : store) (i : nat) (tok tok0 : pyval) (w : world) :
  in_sync i st tok0 w ->
  truthy tok = true ->
  in_sync i (update_login_refresh_token E st i tok w).1 tok
    (update_login_refresh_token E st i tok w).2
  /\ keeps_rest i st (update_login_refresh_token E st i tok w).1.
Proof.
  intros (Hd & login & Hl & _) Ht.
  destruct (py_eq (dict_get login "refreshToken") tok) eqn:Heq.
  - rewrite (update_same E st i login tok w Hl Heq). simpl.
    split; [|apply keeps_rest_refl].
    split; [exact Hd|]. now exists login.
  - rewrite (update_changes E st i login tok w Hl Ht Heq). simpl.
    split; [|now apply keeps_rest_rotated].
    split; [reflexivity|].
    eexists. split; [apply rotated_lookup; exact Hl|].
    unfold dict_get. rewrite lookup_insert_ne by discriminate.
    rewrite lookup_insert_eq. apply py_eq_refl.
Qed.

(** The events of one refresh cycle: the calls of [refresh_once], then
    nothing, or a clock reading and a write of the store returned. *)
Lemma cycle_emits (E : env) (s : session) (i : nat) (st : store) (tok : pyval)
    (w : world) :
  let run := refresh_cycle E s i st tok w in
  exists (reqs evs : list event),
    trace (snd run) = trace w ++ reqs ++ evs
    /\ Forall (fun e => is_http e = true) reqs
    /\ (1 <= length reqs <= MAX_REDIRECTS + 1)%nat
    /\ ((evs = [] /\ disk (snd run) = disk w)
        \/ (exists ts st' tok', evs = [EvClock ts; EvStoreWrite st']
              /\ disk (snd run) = FileJson st'
              /\ fst run = Ok (st', tok'))).
Proof.
  intros run. subst run. unfold refresh_cycle, bind.
  destruct (refresh_once_http E s tok w) as (reqs & Htr & Hdisk & Hhttp & Hlen).
  destruct (refresh_once E s tok w) as [[resp|e] w1]; simpl in Htr, Hdisk.
  2:{ exists reqs, []. rewrite app_nil_r. simpl.
      split; [exact Htr|]. split; [exact Hhttp|]. split; [exact Hlen|].
      left. now split. }
  assert (Hquiet : exists reqs' evs,
             trace w1 = trace w ++ reqs' ++ evs
             /\ Forall (fun e => is_http e = true) reqs'
             /\ (1 <= length reqs' <= MAX_REDIRECTS + 1)%nat
             /\ evs = [] /\ disk w1 = disk w).
  { exists reqs, []. rewrite app_nil_r. auto 10. }
  destruct (negb (status_code resp =? 200)).
  - unfold raise_for_status.
    destruct ((400 <=? status_code resp) && (status_code resp <? 600)); simpl.
    + destruct Hquiet as (h & e & H1 & H2 & H3 & H4 & H5). exists h, e. auto 10.
    + unfold response_json. destruct (json_body resp) as [payload|]; simpl.
      2:{ destruct Hquiet as (h & e & H1 & H2 & H3 & H4 & H5). exists h, e. auto 10. }
      destruct (truthy (dict_get payload "refresh_token")); simpl.
      2:{ destruct Hquiet as (h & e & H1 & H2 & H3 & H4 & H5). exists h, e. auto 10. }
      destruct (update_emits E st i (dict_get payload "refresh_token") w1)
        as [Hsame | (login & Hl & Hrot)]; [rewrite Hsame | rewrite Hrot]; simpl.
      * destruct Hquiet as (h & e & H1 & H2 & H3 & H4 & H5). exists h, e. auto 10.
      * exists reqs. eexists [_; _]. rewrite Htr.
        split; [now rewrite <- app_assoc|]. split; [exact Hhttp|].
        split; [exact Hlen|].
        right. eexists _, _, _. split; [reflexivity|]. split; reflexivity.
  - simpl. unfold response_json. destruct (json_body resp) as [payload|]; simpl.
    2:{ destruct Hquiet as (h & e & H1 & H2 & H3 & H4 & H5). exists h, e. auto 10. }
    destruct (truthy (dict_get payload "refresh_token")); simpl.
    2:{ destruct Hquiet as (h & e & H1 & H2 & H3 & H4 & H5). exists h, e. auto 10. }
    destruct (update_emits E st i (dict_get payload "refresh_token") w1)
      as [Hsame | (login & Hl & Hrot)]; [rewrite Hsame | rewrite Hrot]; simpl.
    * destruct Hquiet as (h & e & H1 & H2 & H3 & H4 & H5). exists h, e. auto 10.
    * exists reqs. eexists [_; _]. rewrite Htr.
      split; [now rewrite <- app_assoc|]. split; [exact Hhttp|].
      split; [exact Hlen|].
      right. eexists _, _, _. split; [reflexivity|]. split; reflexivity.
Qed.


Lemma cycle_sync (E : env) (s : session) (i : nat) (st : store) (tok : pyval)
    (w : world) :
  in_sync i st tok w ->
  match fst (refresh_cycle E s i st tok w) with
  | Ok (st', tok') =>
      in_sync i st' tok' (snd (refresh_cycle E s i st tok w))
      /\ keeps_rest i st st'
  | Raise _ => disk (snd (refresh_cycle E s i st tok w)) = disk w
  end.
Proof.
  intros Hsync. unfold refresh_cycle, bind.
  destruct (refresh_once_http E s tok w) as (reqs & _ & Hdisk & _).
  destruct (refresh_once E s tok w) as [[resp|e] w1]; simpl in Hdisk;
    [|exact Hdisk].
  assert (Hsync1 : in_sync i st tok w1).
  { destruct Hsync as (Hd & Hl). split; [congruence | exact Hl]. }
  assert (Hbody :
            match fst ((let* payload := response_json resp in
                        if truthy (dict_get payload "refresh_token")
                        then fun w0 =>
                               let '(st', w'0) :=
                                 update_login_refresh_token E st i
                                   (dict_get payload "refresh_token") w0 in
                               (Ok (st', dict_get payload "refresh_token"), w'0)
                        else ret (st, tok)) w1) with
            | Ok (st', tok') =>
                in_sync i st' tok'
                  (snd ((let* payload := response_json resp in
                         if truthy (dict_get payload "refresh_token")
                         then fun w0 =>
                                let '(st', w'0) :=
                                  update_login_refresh_token E st i
                                    (dict_get payload "refresh_token") w0 in
                                (Ok (st', dict_get payload "refresh_token"), w'0)
                         else ret (st, tok)) w1))
                /\ keeps_rest i st st'
            | Raise _ =>
                disk (snd ((let* payload := response_json resp in
                            if truthy (dict_get payload "refresh_token")
                            then fun w0 =>
                                   let '(st', w'0) :=
                                     update_login_refresh_token E st i
                                       (dict_get payload "refresh_token") w0 in
                                   (Ok (st', dict_get payload "refresh_token"), w'0)
                            else ret (st, tok)) w1)) = disk w
            end).
  { unfold bind, response_json.
    destruct (json_body resp) as [payload|]; simpl; [|exact Hdisk].
    destruct (truthy (dict_get payload "refresh_token")) eqn:Ht; simpl.
    - pose proof (update_keeps_sync E st i (dict_get payload "refresh_token")
                    tok w1 Hsync1 Ht) as [H1 H2].
      destruct (update_login_refresh_token E st i
                  (dict_get payload "refresh_token") w1) as [st' w2].
      simpl in *. now split.
    - split; [exact Hsync1 | apply keeps_rest_refl]. }
  unfold bind in Hbody.
  destruct (negb (status_code resp =? 200)); [|exact Hbody].
  unfold raise_for_status.
  destruct ((400 <=? status_code resp) && (status_code resp <? 600));
    [exact Hdisk | exact Hbody].
Qed.

Lemma cycles_sync (E : env) (s : session) (i : nat) (n : nat) :
  forall st tok w,
    in_sync i st tok w ->
    exists st_d,
      disk (snd (refresh_cycles E s i n st tok w)) = FileJson st_d
      /\ keeps_rest i st st_d
      /\ (forall st' tok', fst (refresh_cycles E s i n st tok w) = Ok (st', tok') ->
            st_d = st' /\ in_sync i st' tok' (snd (refresh_cycles E s i n st tok w))).
Proof.
  induction n as [|n IH]; intros st tok w Hsync.
  - exists st. simpl. split; [apply Hsync|]. split; [apply keeps_rest_refl|].
    intros st' tok' H. injection H as <- <-. now split.
  - cbn [refresh_cycles]. unfold bind.
    pose proof (cycle_sync E s i st tok w Hsync) as Hc.
    destruct (refresh_cycle E s i st tok w) as [[[st1 tok1]|e] w1]; simpl in Hc.
    + destruct Hc as [Hs1 Hk1].
      destruct (IH st1 tok1 w1 Hs1) as (st_d & Hd & Hk & Hok).
      exists st_d. split; [exact Hd|]. split; [|exact Hok].
      eapply keeps_rest_trans; eassumption.
    + exists st. simpl. split; [rewrite Hc; apply Hsync|].
      split; [apply keeps_rest_refl|]. intros st' tok' H. discriminate H.
Qed.

(** The events of a sequence of cycles, counted. *)
Lemma cycles_emits (E : env) (s : session) (i : nat) (n : nat) :
  forall st tok w,
  exists evs,
    trace (snd (refresh_cycles E s i n st tok w)) = trace w ++ evs
    /\ (length (http_requests evs) <= (MAX_REDIRECTS + 1) * n)%nat
    /\ (length (store_writes evs) <= n)%nat
    /\ helper_runs evs = []
    /\ (forall st' tok', fst (refresh_cycles E s i n st tok w) = Ok (st', tok') ->
          (n <= length (http_requests evs))%nat).
Proof.
  induction n as [|n IH]; intros st tok w.
  - exists []. simpl. rewrite app_nil_r. repeat split; try reflexivity; lia.
  - cbn [refresh_cycles]. unfold bind.
    destruct (cycle_emits E s i st tok w) as (reqs & evs & Htr & Hhttp & Hlen & Hevs).
    assert (Hc : (length (http_requests (reqs ++ evs)) = length reqs
                  /\ length (store_writes (reqs ++ evs)) <= 1
                  /\ helper_runs (reqs ++ evs) = [])%nat).
    { rewrite http_requests_app, store_writes_app, helper_runs_app.
      destruct (http_only reqs Hhttp) as (Hn & -> & ->).
      rewrite !length_app, Hn. simpl.
      destruct Hevs as [[-> _] | (ts & st' & tok' & -> & _)]; simpl;
        repeat split; lia. }
    destruct Hc as (Hh & Hw & Hr). unfold MAX_REDIRECTS in *.
    destruct (refresh_cycle E s i st tok w) as [[[st1 tok1]|e] w1]; simpl in Htr.
    + destruct (IH st1 tok1 w1) as (evs2 & Htr2 & Hh2 & Hw2 & Hr2 & Hok2).
      exists ((reqs ++ evs) ++ evs2).
      split; [rewrite Htr2, Htr; now rewrite !app_assoc|].
      rewrite http_requests_app, store_writes_app, helper_runs_app, !length_app.
      rewrite Hr, Hr2, Hh.
      split; [lia|]. split; [lia|]. split; [reflexivity|].
      intros st' tok' Hok. specialize (Hok2 st' tok' Hok). lia.
    + exists (reqs ++ evs). simpl.
      split; [exact Htr|]. rewrite Hh.
      split; [lia|]. split; [lia|]. split; [exact Hr|].
      intros st' tok' H. discriminate H.
Qed.

(** ** The helper driver *)

Lemma apply_results_sync (E : env) (i : nat) (results : list (gmap string pyval)) :
  forall st tok w,
    in_sync i st tok w ->
    in_sync i (apply_results E i results st tok w).1.1
      (apply_results E i results st tok w).1.2
      (apply_results E i results st tok w).2
    /\ keeps_rest i st (apply_results E i results st tok w).1.1.
Proof.
  induction results as [|entry rest IH]; intros st tok w Hsync; simpl.
  - split; [exact Hsync | apply keeps_rest_refl].
  - destruct (truthy (dict_get entry "refreshToken")) eqn:Ht; [|now apply IH].
    pose proof (update_keeps_sync E st i (dict_get entry "refreshToken") tok w
                  Hsync Ht) as [H1 H2].
    destruct (update_login_refresh_token E st i (dict_get entry "refreshToken") w)
      as [st1 w1]. simpl in H1, H2.
    destruct (IH st1 (dict_get entry "refreshToken") w1 H1) as [H3 H4].
    split; [exact H3|]. eapply keeps_rest_trans; eassumption.
Qed.

Lemma apply_results_emits (E : env) (i : nat) (results : list (gmap string pyval)) :
  forall st tok w,
  exists evs,
    trace (apply_results E i results st tok w).2 = trace w ++ evs
    /\ http_requests evs = []
    /\ helper_runs evs = []
    /\ (length (store_writes evs) <= length results)%nat.
Proof.
  induction results as [|entry rest IH]; intros st tok w; simpl.
  - exists []. rewrite app_nil_r. repeat split. simpl. lia.
  - destruct (truthy (dict_get entry "refreshToken")).
    2:{ destruct (IH st tok w) as (evs & H1 & H2 & H3 & H4).
        exists evs. repeat split; try assumption. lia. }
    destruct (update_emits E st i (dict_get entry "refreshToken") w)
      as [Hsame | (login & Hl & Hrot)]; [rewrite Hsame | rewrite Hrot].
    + destruct (IH st (dict_get entry "refreshToken") w) as (evs & H1 & H2 & H3 & H4).
      exists evs. repeat split; try assumption. lia.
    + match goal with
      | |- context [apply_results E i rest ?st1 ?t1 ?w1] =>
          destruct (IH st1 t1 w1) as (evs & H1 & H2 & H3 & H4)
      end.
      simpl in H1. eexists ([_; _] ++ evs).
      split; [rewrite H1; now rewrite <- app_assoc|].
      rewrite http_requests_app, helper_runs_app, store_writes_app, length_app.
      rewrite H2, H3. simpl. repeat split. lia.
Qed.

(** The events of a run of the helper driver. *)
Lemma node_driver_emits (E : env) (st : store) (i : nat) (tok : pyval)
    (iterations : Z) (o : node_options) (w : world) :
  exists evs,
    trace (perform_refreshes_with_node_driver E st i tok iterations o w).2
    = trace w ++ evs
    /\ http_requests evs = []
    /\ ((helper_runs evs = [] /\ store_writes evs = [])
        \/ helper_runs evs = [build_payload tok iterations o]).
Proof.
  unfold perform_refreshes_with_node_driver.
  destruct (negb (helper_present E (trace w))).
  { exists [EvHelperExists]. simpl.
    split; [reflexivity|]. split; [reflexivity|]. left. now split. }
  set (payload := build_payload tok iterations o).
  destruct (spawn_error E (trace (log EvHelperExists w)) payload) as [cls|].
  { exists [EvHelperExists; EvHelperFailed payload cls]. simpl.
    rewrite <- app_assoc. repeat split. now right. }
  set (result := run_helper E (trace (log EvHelperExists w)) payload).
  assert (Hstop : exists evs,
             trace (log (EvHelperRun payload result) (log EvHelperExists w))
             = trace w ++ evs
             /\ http_requests evs = []
             /\ ((helper_runs evs = [] /\ store_writes evs = [])
                 \/ helper_runs evs = [payload])).
  { exists [EvHelperExists; EvHelperRun payload result]. simpl.
    rewrite <- app_assoc. repeat split. now right. }
  destruct (stdout result) as [|raw|r|]; try exact Hstop.
  destruct (negb (returncode result =? 0)
            || negb (truthy (dict_get (nr_fields r) "success"))); [exact Hstop|].
  destruct (apply_results_emits E i (default [] (nr_results r)) st tok
              (log (EvHelperRun payload result) (log EvHelperExists w)))
    as (evs & H1 & H2 & H3 & _).
  destruct (apply_results E i (default [] (nr_results r)) st tok
              (log (EvHelperRun payload result) (log EvHelperExists w)))
    as [res w3]. simpl in *.
  exists ([EvHelperExists; EvHelperRun payload result] ++ evs).
  split; [rewrite H1; now rewrite <- !app_assoc|].
  rewrite http_requests_app, helper_runs_app, H2, H3. simpl.
  split; [reflexivity | now right].
Qed.

Ltac node_driver_stops st Hd :=
  exists st; simpl; split; [exact Hd|]; split; [apply keeps_rest_refl|];
  intros ? ? Hok; discriminate Hok.

Lemma node_driver_sync (E : env) (st : store) (i : nat) (tok : pyval)
    (iterations : Z) (o : node_options) (w : world) :
  in_sync i st tok w ->
  exists st_d,
    disk (perform_refreshes_with_node_driver E st i tok iterations o w).2
    = FileJson st_d
    /\ keeps_rest i st st_d
    /\ (forall st' tok',
          (perform_refreshes_with_node_driver E st i tok iterations o w).1
          = Ok (st', tok') ->
          st_d = st'
          /\ in_sync i st' tok'
               (perform_refreshes_with_node_driver E st i tok iterations o w).2).
Proof.
  intros Hsync. unfold perform_refreshes_with_node_driver.
  assert (Hd : disk w = FileJson st) by apply Hsync.
  destruct (negb (helper_present E (trace w))); [node_driver_stops st Hd|].
  set (payload := build_payload tok iterations o).
  destruct (spawn_error E (trace (log EvHelperExists w)) payload) as [cls|];
    [node_driver_stops st Hd|].
  set (result := run_helper E (trace (log EvHelperExists w)) payload).
  destruct (stdout result) as [|raw|r|]; try (node_driver_stops st Hd).
  destruct (negb (returncode result =? 0)
            || negb (truthy (dict_get (nr_fields r) "success")));
    [node_driver_stops st Hd|].
  assert (Hsync2 : in_sync i st tok
                     (log (EvHelperRun payload result) (log EvHelperExists w))).
  { split; [exact Hd | apply Hsync]. }
  pose proof (apply_results_sync E i (default [] (nr_results r)) st tok _ Hsync2)
    as [H1 H2].
  destruct (apply_results E i (default [] (nr_results r)) st tok
              (log (EvHelperRun payload result) (log EvHelperExists w)))
    as [[st1 tok1] w3]. simpl in *.
  exists st1. split; [apply H1|]. split; [exact H2|].
  intros st' tok' H. injection H as <- <-. now split.
Qed.

(** ** The whole run *)

Lemma member_drivers (k : string) :
  member k DRIVERS = true -> String.eqb k "node" = false -> k = "requests".
Proof.
  unfold member, DRIVERS. simpl. intros H Hn. rewrite Hn in H.
  rewrite orb_false_r in H. now apply String.eqb_eq.
Qed.

(** The ways [perform_refreshes] can go: it stops before any driver runs,
    having at most looked up and read the store file, or it is one of the
    two drivers started on the loaded store. *)
Lemma perform_refreshes_cases (E : env) (lid : option string) (iterations : Z)
    (preset driver : string) (o : node_options) (w : world) :
  (exists e evs,
      perform_refreshes E lid iterations preset driver o w
      = (Raise e, {| disk := disk w; trace := trace w ++ evs |})
      /\ (evs = [EvStoreExists] \/ evs = [EvStoreExists; EvStoreRead]))
  \/ (exists st i login,
        disk w = FileJson st
        /\ find_login st lid = Ok i
        /\ logins_of st !! i = Some login
        /\ truthy (dict_get login "refreshToken") = true
        /\ ((strip (lower driver) = "node"
             /\ perform_refreshes E lid iterations preset driver o w
                = perform_refreshes_with_node_driver E st i
                    (dict_get login "refreshToken") iterations o
                    {| disk := disk w; trace := trace w ++ [EvStoreExists; EvStoreRead] |})
            \/ (strip (lower driver) = "requests"
                /\ member (strip (lower preset)) SESSION_PRESETS = true
                /\ exists s,
                     build_session E preset
                       {| disk := disk w; trace := trace w ++ [EvStoreExists; EvStoreRead] |}
                     = (Ok s, {| disk := disk w;
                                 trace := trace w ++ [EvStoreExists; EvStoreRead] |})
                     /\ perform_refreshes E lid iterations preset driver o w
                        = refresh_cycles E s i (Z.to_nat iterations) st
                            (dict_get login "refreshToken")
                            {| disk := disk w;
                               trace := trace w ++ [EvStoreExists; EvStoreRead] |}))).
Proof.
  destruct (disk w) as [| |st] eqn:Hd.
  - left. exists (SystemExit ("token-store.json not found at " +:+ TOKEN_STORE_PATH E)),
      [EvStoreExists].
    split; [|now left].
    unfold perform_refreshes, bind, load_token_store, log. now rewrite Hd.
  - left. exists JSONDecodeError, [EvStoreExists; EvStoreRead].
    split; [|now right].
    unfold perform_refreshes, bind, load_token_store, log. rewrite Hd. simpl.
    now rewrite <- app_assoc.
  - destruct (find_login st lid) as [i|e] eqn:Hf.
    2:{ left. exists e, [EvStoreExists; EvStoreRead]. split; [|now right].
        unfold perform_refreshes, bind. rewrite (load_ok E w st Hd), Hf.
        unfold raise. now rewrite Hd. }
    destruct (find_login_in_range st lid i Hf) as [login Hl].
    rewrite (perform_refreshes_loaded E lid iterations preset driver o w st i login
               Hd Hf Hl).
    cbv zeta. rewrite Hd.
    destruct (truthy (dict_get login "refreshToken")) eqn:Ht; simpl negb; cbv iota.
    2:{ left. eexists _, [EvStoreExists; EvStoreRead]. split; [reflexivity | now right]. }
    destruct (member (strip (lower driver)) DRIVERS) eqn:Hm; simpl negb; cbv iota.
    2:{ left. eexists _, [EvStoreExists; EvStoreRead]. split; [reflexivity | now right]. }
    destruct (String.eqb (strip (lower driver)) "node") eqn:Hn.
    { right. exists st, i, login. repeat split; try assumption.
      left. split; [now apply String.eqb_eq | reflexivity]. }
    unfold bind, build_session.
    destruct (member (strip (lower preset)) SESSION_PRESETS) eqn:Hp; simpl negb; cbv iota.
    2:{ left. eexists _, [EvStoreExists; EvStoreRead]. split; [reflexivity | now right]. }
    right. exists st, i, login. repeat split; try assumption.
    right. split; [now apply member_drivers|]. split; [reflexivity|].
    destruct (String.eqb (strip (lower preset)) "node"); eexists; split; reflexivity.
Qed.

Lemma main_cases (E : env) (a : args) (w : world) :
  (exists e, main E a w = (Raise e, w))
  \/ (exists headers,
        0 < count a
        /\ node_headers_of a = Ok headers
        /\ main E a w
           = perform_refreshes E (login_id a) (count a) (preset a) (driver a)
               (options_of E a headers) w).
Proof.
  unfold main. destruct (count a <=? 0) eqn:Hc.
  { left. eexists. reflexivity. }
  apply Z.leb_gt in Hc.
  destruct (node_headers_of a) as [headers|e].
  - right. exists headers. repeat split. lia.
  - left. eexists. reflexivity.
Qed.

Lemma emitted_after (w w' : world) (pre evs : list event) :
  trace w' = (trace w ++ pre) ++ evs -> emitted w w' = pre ++ evs.
Proof. intros H. apply emitted_app. now rewrite H, app_assoc. Qed.

Lemma loaded_in_sync (w : world) (st : store) (i : nat) (login : gmap string pyval) :
  disk w = FileJson st ->
  logins_of st !! i = Some login ->
  in_sync i st (dict_get login "refreshToken")
    {| disk := disk w; trace := trace w ++ [EvStoreExists; EvStoreRead] |}.
Proof.
  intros Hd Hl. split; [exact Hd|]. exists login. split; [exact Hl | apply py_eq_refl].
Qed.

(** X3: when [main] completes, the store file holds exactly the store the
    run ended with in memory, the selected login's [refreshToken] in it
    equals the last token in hand, and that store differs from the one read
    at the start at most in that login's [refreshToken] and [updatedAt] and
    the store's [updatedAt]. *)
Theorem X3_completed_run_in_sync (E : env) (a : args) (w w' : world)
    (st' : store) (tok' : pyval) :
  main E a w = (Ok (st', tok'), w') ->
  exists st i,
    disk w = FileJson st
    /\ find_login st (login_id a) = Ok i
    /\ in_sync i st' tok' w'
    /\ keeps_rest i st st'.
Proof.
  intros Hrun.
  destruct (main_cases E a w) as [[e He] | (headers & _ & _ & Hm)];
    [rewrite He in Hrun; discriminate Hrun|].
  rewrite Hm in Hrun. clear Hm.
  destruct (perform_refreshes_cases E (login_id a) (count a) (preset a) (driver a)
              (options_of E a headers) w)
    as [(e & evs & Hp & _) | (st & i & login & Hd & Hf & Hl & Ht & Hdrv)];
    [rewrite Hp in Hrun; discriminate Hrun|].
  exists st, i. split; [exact Hd|]. split; [exact Hf|].
  pose proof (loaded_in_sync w st i login Hd Hl) as Hsync.
  destruct Hdrv as [(_ & Hp) | (_ & _ & s & _ & Hp)]; rewrite Hp in Hrun.
  - destruct (node_driver_sync E st i (dict_get login "refreshToken") (count a)
                (options_of E a headers) _ Hsync) as (st_d & _ & Hk & Hok).
    rewrite Hrun in Hok. destruct (Hok st' tok' eq_refl) as [<- Hs].
    now split.
  - destruct (cycles_sync E s i (Z.to_nat (count a)) st
                (dict_get login "refreshToken") _ Hsync) as (st_d & _ & Hk & Hok).
    rewrite Hrun in Hok. destruct (Hok st' tok' eq_refl) as [<- Hs].
    now split.
Qed.

Lemma X3_completed_run_in_sync_witness :
  let E := Sample.constant_env
             (Sample.plain 200 None (Some {["refresh_token" := PStr "R2"]})) in
  let w := Sample.on_disk Sample.one_login in
  let st' := {| store_updatedAt := Some (PStr "2025-01-01T00:00:00Z");
                store_logins :=
                  Some [<["updatedAt" := PStr "2025-01-01T00:00:00Z"]>
                          (Sample.login_of (PStr "a") (PStr "R2"))] |} in
  exists st i,
    disk w = FileJson st
    /\ find_login st (login_id Sample.base_args) = Ok i
    /\ in_sync i st' (PStr "R2") (snd (main E Sample.base_args w))
    /\ keeps_rest i st st'.
Proof.
  intros E w st'.
  apply (X3_completed_run_in_sync E Sample.base_args w
           (snd (main E Sample.base_args w)) st' (PStr "R2")).
  vm_compute. reflexivity.
Defined.

(** The stores handed to [persist_token_store] by a sequence of cycles. *)
Lemma cycles_written (E : env) (s : session) (i : nat) (n : nat) :
  forall st tok w st0,
    in_sync i st tok w ->
    keeps_rest i st0 st ->
    exists evs,
      trace (snd (refresh_cycles E s i n st tok w)) = trace w ++ evs
      /\ Forall (keeps_rest i st0) (store_writes evs).
Proof.
  induction n as [|n IH]; intros st tok w st0 Hsync Hk0.
  - exists []. simpl. rewrite app_nil_r. split; [reflexivity | constructor].
  - cbn [refresh_cycles]. unfold bind.
    destruct (cycle_emits E s i st tok w) as (reqs & evs & Htr & Hhttp & _ & Hevs).
    pose proof (cycle_sync E s i st tok w Hsync) as Hc.
    assert (Hw : Forall (keeps_rest i st0) (store_writes (reqs ++ evs))).
    { rewrite store_writes_app.
      destruct (http_only reqs Hhttp) as (_ & -> & _). simpl.
      destruct Hevs as [[-> _] | (ts & st' & tok' & -> & _ & Hok)];
        [constructor|].
      rewrite Hok in Hc. destruct Hc as [_ Hk]. simpl.
      constructor; [|constructor]. eapply keeps_rest_trans; eassumption. }
    destruct (refresh_cycle E s i st tok w) as [[[st1 tok1]|e] w1];
      simpl in Htr, Hc.
    + destruct Hc as [Hs1 Hk1].
      destruct (IH st1 tok1 w1 st0 Hs1 (keeps_rest_trans _ _ _ _ Hk0 Hk1))
        as (evs2 & Htr2 & Hw2).
      exists ((reqs ++ evs) ++ evs2).
      split; [rewrite Htr2, Htr; now rewrite !app_assoc|].
      rewrite store_writes_app. apply Forall_app. now split.
    + exists (reqs ++ evs). simpl. split; [exact Htr | exact Hw].
Qed.

(** The stores handed to [persist_token_store] by the loop over the
    helper's results. *)
Lemma apply_results_written (E : env) (i : nat) (results : list (gmap string pyval)) :
  forall st tok w st0,
    in_sync i st tok w ->
    keeps_rest i st0 st ->
    exists evs,
      trace (apply_results E i results st tok w).2 = trace w ++ evs
      /\ Forall (keeps_rest i st0) (store_writes evs).
Proof.
  induction results as [|entry rest IH]; intros st tok w st0 Hsync Hk0; simpl.
  - exists []. rewrite app_nil_r. split; [reflexivity | constructor].
  - destruct (truthy (dict_get entry "refreshToken")) eqn:Ht; [|now apply IH].
    pose proof (update_keeps_sync E st i (dict_get entry "refreshToken") tok w
                  Hsync Ht) as [Hs1 Hk1].
    destruct (update_emits E st i (dict_get entry "refreshToken") w)
      as [Hsame | (login & Hl & Hrot)].
    + rewrite Hsame in *. simpl in Hs1. now apply IH.
    + rewrite Hrot in *. simpl in Hs1, Hk1.
      match goal with
      | |- context [apply_results E i rest ?st1 ?t1 ?w1] =>
          destruct (IH st1 t1 w1 st0 Hs1 (keeps_rest_trans _ _ _ _ Hk0 Hk1))
            as (evs & Htr & Hw)
      end.
      simpl in Htr. eexists ([_; _] ++ evs).
      split; [rewrite Htr; now rewrite <- app_assoc|].
      rewrite store_writes_app. apply Forall_app. split; [|exact Hw].
      simpl. constructor; [|constructor].
      eapply keeps_rest_trans; eassumption.
Qed.

Lemma node_driver_written (E : env) (st : store) (i : nat) (tok : pyval)
    (iterations : Z) (o : node_options) (w : world) :
  in_sync i st tok w ->
  exists evs,
    trace (perform_refreshes_with_node_driver E st i tok iterations o w).2
    = trace w ++ evs
    /\ Forall (keeps_rest i st) (store_writes evs).
Proof.
  intros Hsync. unfold perform_refreshes_with_node_driver.
  destruct (negb (helper_present E (trace w))).
  { exists [EvHelperExists]. split; [reflexivity | constructor]. }
  set (payload := build_payload tok iterations o).
  destruct (spawn_error E (trace (log EvHelperExists w)) payload) as [cls|].
  { exists [EvHelperExists; EvHelperFailed payload cls]. simpl.
    rewrite <- app_assoc. split; [reflexivity | constructor]. }
  set (result := run_helper E (trace (log EvHelperExists w)) payload).
  assert (Hstop : exists evs,
             trace (log (EvHelperRun payload result) (log EvHelperExists w))
             = trace w ++ evs
             /\ Forall (keeps_rest i st) (store_writes evs)).
  { exists [EvHelperExists; EvHelperRun payload result]. simpl.
    rewrite <- app_assoc. split; [reflexivity | constructor]. }
  destruct (stdout result) as [|raw|r|]; try exact Hstop.
  destruct (negb (returncode result =? 0)
            || negb (truthy (dict_get (nr_fields r) "success"))); [exact Hstop|].
  assert (Hsync2 : in_sync i st tok
                     (log (EvHelperRun payload result) (log EvHelperExists w))).
  { split; [apply Hsync | apply Hsync]. }
  destruct (apply_results_written E i (default [] (nr_results r)) st tok _ st
              Hsync2 (keeps_rest_refl i st)) as (evs & Htr & Hw).
  destruct (apply_results E i (default [] (nr_results r)) st tok
              (log (EvHelperRun payload result) (log EvHelperExists w)))
    as [res w3]. simpl in *.
  exists ([EvHelperExists; EvHelperRun payload result] ++ evs).
  split; [rewrite Htr; now rewrite <- !app_assoc|].
  rewrite store_writes_app. simpl. exact Hw.
Qed.

(** X4: provided each write of the store file completes, replacing the
    file's content with the store it is handed (a write that fails part-way
    is outside the model), a file that held a store before the run still
    holds one after it, whatever the outcome of the run: it is the original
    store, or it differs from it at most in the selected login's
    [refreshToken] and [updatedAt] and the store's [updatedAt].  No failure
    of a request, of the helper or of a check loses or damages the other
    logins. *)
Theorem X4_store_file_survives (E : env) (a : args) (w : world) (st : store) :
  disk w = FileJson st ->
  exists st',
    disk (snd (main E a w)) = FileJson st'
    /\ (st' = st
        \/ exists i, find_login st (login_id a) = Ok i /\ keeps_rest i st st').
Proof.
  intros Hd.
  destruct (main_cases E a w) as [[e He] | (headers & _ & _ & Hm)].
  { exists st. rewrite He. simpl. split; [exact Hd | now left]. }
  rewrite Hm. clear Hm.
  destruct (perform_refreshes_cases E (login_id a) (count a) (preset a) (driver a)
              (options_of E a headers) w)
    as [(e & evs & Hp & _) | (st0 & i & login & Hd0 & Hf & Hl & Ht & Hdrv)].
  { exists st. rewrite Hp. simpl. split; [exact Hd | now left]. }
  assert (st0 = st) by congruence. subst st0.
  pose proof (loaded_in_sync w st i login Hd Hl) as Hsync.
  destruct Hdrv as [(_ & Hp) | (_ & _ & s & _ & Hp)]; rewrite Hp.
  - destruct (node_driver_sync E st i (dict_get login "refreshToken") (count a)
                (options_of E a headers) _ Hsync) as (st_d & Hdd & Hk & _).
    exists st_d. split; [exact Hdd|]. right. now exists i.
  - destruct (cycles_sync E s i (Z.to_nat (count a)) st
                (dict_get login "refreshToken") _ Hsync) as (st_d & Hdd & Hk & _).
    exists st_d. split; [exact Hdd|]. right. now exists i.
Qed.

Lemma X4_store_file_survives_witness :
  let E := Sample.constant_env (Sample.plain 500 None None) in
  let w := Sample.on_disk Sample.one_login in
  exists st',
    disk (snd (main E Sample.base_args w)) = FileJson st'
    /\ (st' = Sample.one_login
        \/ exists i, find_login Sample.one_login (login_id Sample.base_args) = Ok i
                     /\ keeps_rest i Sample.one_login st').
Proof.
  intros E w.
  apply (X4_store_file_survives E Sample.base_args w Sample.one_login).
  reflexivity.
Defined.

(** X5: a run never sends more than six requests per requested cycle, runs
    the helper at most once, and never does both; without a helper run it
    writes the store at most once per requested cycle. *)
Theorem X5_run_budget (E : env) (a : args) (w : world) :
  let evs := emitted w (snd (main E a w)) in
  (length (http_requests evs) <= (MAX_REDIRECTS + 1) * Z.to_nat (count a))%nat
  /\ (length (helper_runs evs) <= 1)%nat
  /\ (http_requests evs = [] \/ helper_runs evs = [])
  /\ (helper_runs evs = [] ->
      (length (store_writes evs) <= Z.to_nat (count a))%nat).
Proof.
  intros evs. subst evs.
  destruct (main_cases E a w) as [[e He] | (headers & _ & _ & Hm)].
  { rewrite He. simpl. rewrite emitted_refl. simpl.
    repeat split; try lia. now left. }
  rewrite Hm. clear Hm.
  destruct (perform_refreshes_cases E (login_id a) (count a) (preset a) (driver a)
              (options_of E a headers) w)
    as [(e & evs & Hp & Hevs) | (st & i & login & Hd & Hf & Hl & Ht & Hdrv)].
  { rewrite Hp. simpl. erewrite emitted_app by reflexivity.
    destruct Hevs as [-> | ->]; simpl; repeat split; try lia; now left. }
  destruct Hdrv as [(_ & Hp) | (_ & _ & s & _ & Hp)]; rewrite Hp.
  - destruct (node_driver_emits E st i (dict_get login "refreshToken") (count a)
                (options_of E a headers)
                {| disk := disk w; trace := trace w ++ [EvStoreExists; EvStoreRead] |})
      as (evs & Htr & Hh & Hr).
    simpl in Htr. rewrite (emitted_after _ _ _ _ Htr).
    rewrite http_requests_app, helper_runs_app, store_writes_app, Hh. simpl.
    split; [lia|]. split; [destruct Hr as [[-> _] | ->]; simpl; lia|].
    split; [now left|].
    intros Hnone. destruct Hr as [[_ ->] | Hone]; [simpl; lia|].
    rewrite Hone in Hnone. discriminate Hnone.
  - destruct (cycles_emits E s i (Z.to_nat (count a)) st
                (dict_get login "refreshToken")
                {| disk := disk w; trace := trace w ++ [EvStoreExists; EvStoreRead] |})
      as (evs & Htr & Hh & Hw & Hr & _).
    simpl in Htr. rewrite (emitted_after _ _ _ _ Htr).
    rewrite http_requests_app, helper_runs_app, store_writes_app, Hr. simpl.
    split; [exact Hh|]. split; [lia|]. split; [now right|].
    intros _. exact Hw.
Qed.

(** X6: a request is sent only by a run that passed the count and header
    checks, read a store from the file, resolved the login, found its
    refresh token non-empty, and was asked for the [requests] driver with a
    recognised preset. *)
Theorem X6_requests_only_after_checks (E : env) (a : args) (w : world)
    (q : request) :
  In q (http_requests (emitted w (snd (main E a w)))) ->
  0 < count a
  /\ (exists headers, node_headers_of a = Ok headers)
  /\ strip (lower (driver a)) = "requests"
  /\ member (strip (lower (preset a))) SESSION_PRESETS = true
  /\ exists st i login,
       disk w = FileJson st
       /\ find_login st (login_id a) = Ok i
       /\ logins_of st !! i = Some login
       /\ truthy (dict_get login "refreshToken") = true.
Proof.
  destruct (main_cases E a w) as [[e He] | (headers & Hc & Hh & Hm)].
  { rewrite He. simpl. rewrite emitted_refl. intros []. }
  rewrite Hm. clear Hm.
  destruct (perform_refreshes_cases E (login_id a) (count a) (preset a) (driver a)
              (options_of E a headers) w)
    as [(e & evs & Hp & Hevs) | (st & i & login & Hd & Hf & Hl & Ht & Hdrv)].
  { rewrite Hp. simpl. erewrite emitted_app by reflexivity.
    destruct Hevs as [-> | ->]; intros []. }
  destruct Hdrv as [(_ & Hp) | (Hdrv & Hpre & s & _ & Hp)]; rewrite Hp.
  - destruct (node_driver_emits E st i (dict_get login "refreshToken") (count a)
                (options_of E a headers)
                {| disk := disk w; trace := trace w ++ [EvStoreExists; EvStoreRead] |})
      as (evs & Htr & Hq & _).
    simpl in Htr. rewrite (emitted_after _ _ _ _ Htr).
    rewrite http_requests_app, Hq. intros [].
  - intros _. split; [exact Hc|]. split; [now exists headers|].
    split; [exact Hdrv|]. split; [exact Hpre|]. now exists st, i, login.
Qed.

Lemma X6_requests_only_after_checks_witness :
  let E := Sample.constant_env (Sample.plain 200 None None) in
  let w := Sample.on_disk Sample.one_login in
  0 < count Sample.base_args
  /\ (exists headers, node_headers_of Sample.base_args = Ok headers)
  /\ strip (lower (driver Sample.base_args)) = "requests"
  /\ member (strip (lower (preset Sample.base_args))) SESSION_PRESETS = true
  /\ exists st i login,
       disk w = FileJson st
       /\ find_login st (login_id Sample.base_args) = Ok i
       /\ logins_of st !! i = Some login
       /\ truthy (dict_get login "refreshToken") = true.
Proof.
  intros E w.
  apply (X6_requests_only_after_checks E Sample.base_args w
           {| req_url := TOKEN_URL;
              req_params := Some [("grant_type", PStr "refresh_token");
                                  ("refresh_token", PStr "R1")];
              req_headers := {["User-Agent" := "python-requests/2.32.5"]} |}).
  vm_compute. left. reflexivity.
Defined.

(** X7: the helper is run only by a run that passed the count and header
    checks, read a store from the file, resolved the login, found its
    refresh token non-empty and was asked for the [node] driver; and the
    argument it receives carries that stored token, the requested count and
    the options of the command line. *)
Theorem X7_helper_only_after_checks (E : env) (a : args) (w : world)
    (p : node_payload) :
  In p (helper_runs (emitted w (snd (main E a w)))) ->
  0 < count a
  /\ strip (lower (driver a)) = "node"
  /\ exists headers st i login,
       node_headers_of a = Ok headers
       /\ disk w = FileJson st
       /\ find_login st (login_id a) = Ok i
       /\ logins_of st !! i = Some login
       /\ truthy (dict_get login "refreshToken") = true
       /\ p = build_payload (dict_get login "refreshToken") (count a)
                (options_of E a headers).
Proof.
  destruct (main_cases E a w) as [[e He] | (headers & Hc & Hh & Hm)].
  { rewrite He. simpl. rewrite emitted_refl. intros []. }
  rewrite Hm. clear Hm.
  destruct (perform_refreshes_cases E (login_id a) (count a) (preset a) (driver a)
              (options_of E a headers) w)
    as [(e & evs & Hp & Hevs) | (st & i & login & Hd & Hf & Hl & Ht & Hdrv)].
  { rewrite Hp. simpl. erewrite emitted_app by reflexivity.
    destruct Hevs as [-> | ->]; intros []. }
  destruct Hdrv as [(Hdrv & Hp) | (_ & _ & s & _ & Hp)]; rewrite Hp.
  - destruct (node_driver_emits E st i (dict_get login "refreshToken") (count a)
                (options_of E a headers)
                {| disk := disk w; trace := trace w ++ [EvStoreExists; EvStoreRead] |})
      as (evs & Htr & _ & Hr).
    simpl in Htr. rewrite (emitted_after _ _ _ _ Htr).
    rewrite helper_runs_app. simpl.
    destruct Hr as [[-> _] | ->]; [intros []|].
    intros [<- | []]. split; [exact Hc|]. split; [exact Hdrv|].
    now exists headers, st, i, login.
  - destruct (cycles_emits E s i (Z.to_nat (count a)) st
                (dict_get login "refreshToken")
                {| disk := disk w; trace := trace w ++ [EvStoreExists; EvStoreRead] |})
      as (evs & Htr & _ & _ & Hr & _).
    simpl in Htr. rewrite (emitted_after _ _ _ _ Htr).
    rewrite helper_runs_app, Hr. intros [].
Qed.

Lemma X7_helper_only_after_checks_witness :
  let E := Sample.constant_env (Sample.plain 200 None None) in
  let w := Sample.on_disk Sample.one_login in
  let a := Sample.with_driver "node" Sample.base_args in
  0 < count a
  /\ strip (lower (driver a)) = "node"
  /\ exists headers st i login,
       node_headers_of a = Ok headers
       /\ disk w = FileJson st
       /\ find_login st (login_id a) = Ok i
       /\ logins_of st !! i = Some login
       /\ truthy (dict_get login "refreshToken") = true
       /\ {| np_refreshToken := PStr "R1"; np_iterations := 1; np_config := None |}
          = build_payload (dict_get login "refreshToken") (count a)
              (options_of E a headers).
Proof.
  intros E w a.
  apply (X7_helper_only_after_checks E a w
           {| np_refreshToken := PStr "R1"; np_iterations := 1; np_config := None |}).
  vm_compute. left. reflexivity.
Defined.



(** X9: after the helper's results have been applied, the token in hand is
    the [refreshToken] of the last result entry that carries a non-empty
    one, or the token the driver started with when no entry does. *)
Theorem X9_last_rotated_token_wins (E : env) (i : nat)
    (results : list (gmap string pyval)) :
  forall (st : store) (tok : pyval) (w : world),
    (Forall (fun e => truthy (dict_get e "refreshToken") = false) results
     /\ (apply_results E i results st tok w).1.2 = tok)
    \/ (exists pre e post,
          results = pre ++ e :: post
          /\ truthy (dict_get e "refreshToken") = true
          /\ (apply_results E i results st tok w).1.2 = dict_get e "refreshToken"
          /\ Forall (fun e' => truthy (dict_get e' "refreshToken") = false) post).
Proof.
  induction results as [|entry rest IH]; intros st tok w; simpl.
  - left. split; [constructor | reflexivity].
  - destruct (truthy (dict_get entry "refreshToken")) eqn:Ht.
    + destruct (update_login_refresh_token E st i (dict_get entry "refreshToken") w)
        as [st1 w1].
      right.
      destruct (IH st1 (dict_get entry "refreshToken") w1)
        as [[Hall Heq] | (pre & e & post & -> & He & Heq & Hpost)].
      * exists [], entry, rest. repeat split; assumption.
      * exists (entry :: pre), e, post. repeat split; assumption.
    + destruct (IH st tok w)
        as [[Hall Heq] | (pre & e & post & -> & He & Heq & Hpost)].
      * left. split; [now constructor | exact Heq].
      * right. exists (entry :: pre), e, post. repeat split; assumption.
Qed.

(** X10: with the command line accepted, a store file that is missing ends
    the run with a fatal error naming the path after nothing but the lookup
    of the file; a file that does not parse ends it with the JSON error
    after the read; and a login that cannot be resolved ends it with
    [find_login]'s error after the read.  In none of these cases is a
    driver started. *)
Theorem X10_configuration_errors_stop_the_run (E : env) (a : args) (w : world)
    (headers : option (gmap string string)) :
  0 < count a ->
  node_headers_of a = Ok headers ->
  (disk w = FileMissing ->
   main E a w
   = (Raise (SystemExit ("token-store.json not found at " +:+ TOKEN_STORE_PATH E)),
      {| disk := disk w; trace := trace w ++ [EvStoreExists] |}))
  /\ (disk w = FileInvalid ->
      main E a w
      = (Raise JSONDecodeError,
         {| disk := disk w; trace := trace w ++ [EvStoreExists; EvStoreRead] |}))
  /\ (forall st e, disk w = FileJson st -> find_login st (login_id a) = Raise e ->
        main E a w
        = (Raise e, {| disk := disk w; trace := trace w ++ [EvStoreExists; EvStoreRead] |})).
Proof.
  intros Hc Hh. rewrite (main_validated E a w headers Hc Hh).
  split; [|split].
  - intros Hd. unfold perform_refreshes, bind, load_token_store, log. now rewrite Hd.
  - intros Hd. unfold perform_refreshes, bind, load_token_store, log. rewrite Hd.
    simpl. now rewrite <- app_assoc.
  - intros st e Hd Hf. unfold perform_refreshes, bind.
    rewrite (load_ok E w st Hd), Hf. reflexivity.
Qed.

Lemma X10_configuration_errors_stop_the_run_witness :
  let E := Sample.constant_env (Sample.plain 200 None None) in
  let w := {| disk := FileMissing; trace := [] |} in
  main E Sample.base_args w
  = (Raise (SystemExit "token-store.json not found at /srv/server/token-store.json"),
     {| disk := FileMissing; trace := [EvStoreExists] |}).
Proof.
  intros E w.
  refine (proj1 (X10_configuration_errors_stop_the_run E Sample.base_args w None _ _) _);
    reflexivity.
Defined.

(** ** The helper's argument *)

Lemma keep_truthy_none (v : option string) :
  keep_truthy v = None <-> opt_truthy v = false.
Proof.
  unfold keep_truthy. destruct (opt_truthy v) eqn:H; split; intros H'; try congruence.
  destruct v; [discriminate H' | discriminate H].
Qed.

(** X11: the helper's argument has no [config] key exactly when nothing was
    asked for: no method, trace path or client, no keep-alive choice, no
    connection-close flag, no non-empty TLS option and no header.  An empty
    method or client still counts as asked for; an empty TLS option does
    not. *)
Theorem X11_config_omitted_iff (tok : pyval) (iterations : Z) (o : node_options) :
  np_config (build_payload tok iterations o) = None
  <-> (opt_method o = None /\ opt_trace_path o = None /\ opt_client o = None
       /\ opt_keepalive o = None /\ opt_connection_close o = false
       /\ opt_truthy (opt_tls_min o) = false
       /\ opt_truthy (opt_tls_max o) = false
       /\ opt_truthy (opt_tls_ciphers o) = false
       /\ (opt_headers o = None \/ opt_headers o = Some ∅)).
Proof.
  destruct o as [tp m c ka cc tmin tmax tc hs].
  unfold build_payload, build_config, config_nonempty, build_connection,
    build_tls, build_headers. simpl.
  rewrite <- !keep_truthy_none.
  destruct (keep_truthy tmin), (keep_truthy tmax), (keep_truthy tc),
    m, tp, c, ka, cc, hs as [h|]; simpl;
    try destruct (decide (h = ∅)) as [->|Hne]; simpl;
    split; intros H; try discriminate H;
    repeat match goal with
           | H : _ /\ _ |- _ => destruct H
           | H : _ \/ _ |- _ => destruct H
           end;
    try congruence; try discriminate; auto 12.
Qed.

(** X12: whatever the options, the helper's argument carries the token and
    the count unchanged, and its [config], when present, holds no empty
    object and no empty TLS value: a [connection] has a keep-alive choice
    or [connectionClose], which is never false; a [tls] has at least one
    field and each field present is non-empty; [headers] is non-empty. *)
Theorem X12_payload_well_formed (tok : pyval) (iterations : Z) (o : node_options) :
  let p := build_payload tok iterations o in
  np_refreshToken p = tok
  /\ np_iterations p = iterations
  /\ forall c, np_config p = Some c ->
       (forall cn, cfg_connection c = Some cn ->
          connectionClose cn <> Some false
          /\ (keepAlive cn <> None \/ connectionClose cn = Some true))
       /\ (forall t, cfg_tls c = Some t ->
             opt_truthy (minVersion t) = true \/ minVersion t = None)
       /\ (forall t, cfg_tls c = Some t ->
             opt_truthy (maxVersion t) = true \/ maxVersion t = None)
       /\ (forall t, cfg_tls c = Some t ->
             opt_truthy (ciphers t) = true \/ ciphers t = None)
       /\ (forall t, cfg_tls c = Some t ->
             minVersion t <> None \/ maxVersion t <> None \/ ciphers t <> None)
       /\ (forall h, cfg_headers c = Some h -> h <> ∅).
Proof.
  intros p. subst p. split; [reflexivity|]. split; [reflexivity|].
  intros c Hc. unfold build_payload in Hc. simpl in Hc.
  destruct (config_nonempty (build_config o)); [|discriminate Hc].
  injection Hc as <-.
  assert (Hkeep : forall v, opt_truthy (keep_truthy v) = true \/ keep_truthy v = None).
  { intros v. unfold keep_truthy. destruct (opt_truthy v) eqn:H; [now left | now right]. }
  unfold build_config. simpl.
  split; [|split; [|split; [|split; [|split]]]].
  - intros cn Hcn. unfold build_connection in Hcn. simpl in Hcn.
    destruct (opt_keepalive o), (opt_connection_close o); simpl in Hcn;
      try discriminate Hcn; injection Hcn as <-; simpl;
      (split; [discriminate|]);
      first [ left; discriminate | right; reflexivity ].
  - intros t Ht. unfold build_tls in Ht. simpl in Ht.
    pose proof (Hkeep (opt_tls_min o)) as K.
    destruct (keep_truthy (opt_tls_min o)), (keep_truthy (opt_tls_max o)),
      (keep_truthy (opt_tls_ciphers o));
      try discriminate Ht; injection Ht as <-; exact K.
  - intros t Ht. unfold build_tls in Ht. simpl in Ht.
    pose proof (Hkeep (opt_tls_max o)) as K.
    destruct (keep_truthy (opt_tls_min o)), (keep_truthy (opt_tls_max o)),
      (keep_truthy (opt_tls_ciphers o));
      try discriminate Ht; injection Ht as <-; exact K.
  - intros t Ht. unfold build_tls in Ht. simpl in Ht.
    pose proof (Hkeep (opt_tls_ciphers o)) as K.
    destruct (keep_truthy (opt_tls_min o)), (keep_truthy (opt_tls_max o)),
      (keep_truthy (opt_tls_ciphers o));
      try discriminate Ht; injection Ht as <-; exact K.
  - intros t Ht. unfold build_tls in Ht. simpl in Ht.
    destruct (keep_truthy (opt_tls_min o)) eqn:H1,
      (keep_truthy (opt_tls_max o)) eqn:H2,
      (keep_truthy (opt_tls_ciphers o)) eqn:H3;
      try discriminate Ht; injection Ht as <-; simpl;
      first [ left; discriminate | right; left; discriminate
            | right; right; discriminate ].
  - intros h Hh. unfold build_headers in Hh.
    destruct (opt_headers o) as [h0|]; [|discriminate Hh].
    destruct (decide (h0 = ∅)) as [|Hne]; [discriminate Hh|].
    injection Hh as <-. exact Hne.
Qed.

(** ** Header presets *)

(** X13: [build_session] accepts a preset exactly when, lowered and
    stripped, it is [python] or [node], never touches the world, and gives
    both accepted presets the same User-Agent.  The [node] preset replaces
    the library's default headers by its own four; the [python] preset
    keeps every default header but the User-Agent. *)
Theorem X13_presets (E : env) (preset : string) (w : world) :
  let key := strip (lower preset) in
  snd (build_session E preset w) = w
  /\ ((exists s, fst (build_session E preset w) = Ok s)
      <-> (key = "python" \/ key = "node"))
  /\ (forall s, fst (build_session E preset w) = Ok s ->
        session_headers s !! "User-Agent" = Some "python-requests/2.32.5"
        /\ (key = "node" ->
            session_headers s !! "Connection" = Some "close"
            /\ session_headers s !! "Accept" = Some "application/json, text/plain, */*"
            /\ session_headers s !! "Accept-Encoding" = Some "gzip, compress, deflate, br"
            /\ size (session_headers s) = 4%nat)
        /\ (key = "python" ->
            forall k, k <> "User-Agent" ->
              session_headers s !! k = default_headers E !! k)).
Proof.
  intros key. subst key. unfold build_session, member, SESSION_PRESETS. simpl.
  destruct (String.eqb (strip (lower preset)) "python") eqn:Hpy;
    destruct (String.eqb (strip (lower preset)) "node") eqn:Hno; simpl.
  - apply String.eqb_eq in Hpy, Hno. rewrite Hpy in Hno. discriminate Hno.
  - apply String.eqb_eq in Hpy. apply String.eqb_neq in Hno.
    split; [reflexivity|]. split.
    + split; [now left | intros _; eexists; reflexivity].
    + intros s Hs. injection Hs as <-. simpl.
      split; [apply lookup_insert_eq|]. split; [intros H; contradiction|].
      intros _ k Hk. now apply lookup_insert_ne.
  - apply String.eqb_eq in Hno. apply String.eqb_neq in Hpy.
    split; [reflexivity|]. split.
    + split; [now right | intros _; eexists; reflexivity].
    + intros s Hs. injection Hs as <-. simpl.
      split; [vm_compute; reflexivity|]. split.
      * intros _. repeat split; vm_compute; reflexivity.
      * intros H. contradiction.
  - apply String.eqb_neq in Hpy, Hno.
    split; [reflexivity|]. split.
    + split; [intros [s Hs]; discriminate Hs | intros [H | H]; contradiction].
    + intros s Hs. discriminate Hs.
Qed.

(** ** Parsing the header flags *)

Lemma has_colon_split (h : string) :
  has_colon h = true -> exists k v, split_colon h = Some (k, v).
Proof.
  induction h as [|c h IH]; simpl; [discriminate|].
  destruct (Ascii.eqb c ":"); simpl.
  - intros _. now eexists _, _.
  - intros H. destruct (IH H) as (k & v & ->). now eexists _, _.
Qed.

Lemma parse_node_headers_app (hs1 hs2 : list string) :
  forall acc,
    parse_node_headers (hs1 ++ hs2) acc
    = match parse_node_headers hs1 acc with
      | Ok d => parse_node_headers hs2 d
      | Raise e => Raise e
      end.
Proof.
  induction hs1 as [|h hs1 IH]; intros acc; simpl; [reflexivity|].
  destruct (negb (nonempty h) || String.eqb (strip h) EmptyString); [apply IH|].
  destruct (negb (has_colon h)); [reflexivity|].
  destruct (split_colon h) as [[k v]|]; [apply IH | reflexivity].
Qed.

Lemma parse_one_header (k v : string) (acc : gmap string string) :
  has_colon k = false ->
  parse_node_headers [k +:+ ":" +:+ v] acc = Ok (<[strip k := strip v]> acc).
Proof.
  intros Hk. simpl.
  destruct (negb (nonempty (k +:+ ":" +:+ v))
            || String.eqb (strip (k +:+ ":" +:+ v)) EmptyString) eqn:Hskip.
  - apply skipped_iff_blank in Hskip.
    exfalso. revert Hskip. apply has_colon_not_blank, has_colon_app.
  - rewrite has_colon_app. simpl. now rewrite (split_colon_app k v Hk).
Qed.

(** X14: the header flags are accepted exactly when every value is blank or
    contains a colon; blank values contribute nothing, whatever their
    position. *)
Theorem X14_headers_accepted_iff (hs : list string) :
  forall acc : gmap string string,
    ((exists d, parse_node_headers hs acc = Ok d)
     <-> Forall (fun h => blank h \/ has_colon h = true) hs)
    /\ parse_node_headers hs acc
       = parse_node_headers
           (List.filter (fun h => negb (String.eqb (strip h) EmptyString)) hs) acc.
Proof.
  induction hs as [|h rest IH]; intros acc.
  - simpl. split; [|reflexivity]. split; [constructor | now exists acc].
  - cbn [parse_node_headers List.filter].
    destruct (negb (nonempty h) || String.eqb (strip h) EmptyString) eqn:Hskip.
    + assert (Hb : strip h = EmptyString) by now apply skipped_iff_blank.
      assert (Hb' : String.eqb (strip h) EmptyString = true) by now apply String.eqb_eq.
      rewrite Hb'. simpl negb. cbv iota.
      destruct (IH acc) as [Hiff Hfil]. split; [|exact Hfil].
      rewrite Hiff. split.
      * intros H. constructor; [now left | exact H].
      * intros H. now inversion H.
    + assert (Hnb : strip h <> EmptyString).
      { intros Hb. apply skipped_iff_blank in Hb. congruence. }
      assert (Hnb' : String.eqb (strip h) EmptyString = false) by now apply String.eqb_neq.
      rewrite Hnb'. simpl negb. cbv iota. cbn [parse_node_headers].
      rewrite Hskip.
      destruct (has_colon h) eqn:Hc; simpl negb; cbv iota.
      * destruct (has_colon_split h Hc) as (k & v & ->).
        destruct (IH (<[strip k := strip v]> acc)) as [Hiff Hfil].
        split; [|exact Hfil]. rewrite Hiff. split.
        -- intros H. constructor; [now right | exact H].
        -- intros H. now inversion H.
      * split; [|reflexivity]. split.
        -- intros [d Hd]. discriminate Hd.
        -- intros H. inversion H as [|? ? [Hb | Hc'] _]; subst;
             [contradiction | congruence].
Qed.

(** X15: header flags are applied in order, so a later flag overrides an
    earlier one with the same key and leaves the other keys alone: when a
    list of flags parses to [d], the list followed by ["k:v"] parses to [d]
    with the stripped key set to the stripped value. *)
Theorem X15_later_header_wins (hs : list string) (acc d : gmap string string)
    (k v : string) :
  parse_node_headers hs acc = Ok d ->
  has_colon k = false ->
  exists d',
    parse_node_headers (hs ++ [k +:+ ":" +:+ v]) acc = Ok d'
    /\ d' !! strip k = Some (strip v)
    /\ (forall k', k' <> strip k -> d' !! k' = d !! k').
Proof.
  intros Hd Hk. exists (<[strip k := strip v]> d).
  rewrite parse_node_headers_app, Hd, (parse_one_header k v d Hk).
  split; [reflexivity|]. split; [apply lookup_insert_eq|].
  intros k' Hne. apply lookup_insert_ne. congruence.
Qed.

Lemma X15_later_header_wins_witness :
  exists d',
    parse_node_headers (["X: 1"] ++ [" X " +:+ ":" +:+ "2"]) ∅ = Ok d'
    /\ d' !! strip " X " = Some (strip "2")
    /\ (forall k', k' <> strip " X " ->
          d' !! k' = ({["X" := "1"]} : gmap string string) !! k').
Proof.
  apply (X15_later_header_wins ["X: 1"] ∅ {["X" := "1"]} " X " "2");
    reflexivity.
Defined.

(** ** Masking *)

Lemma str_take_drop (n : nat) (s : string) : s = str_take n s +:+ str_drop n s.
Proof.
  revert s. induction n as [|n IH]; intros s; [reflexivity|].
  destruct s as [|c s]; [reflexivity|].
  change (String c s = String c (str_take n s +:+ str_drop n s)).
  f_equal. apply IH.
Qed.

Lemma length_str_take (n : nat) (s : string) :
  (n <= String.length s)%nat -> String.length (str_take n s) = n.
Proof.
  revert s. induction n as [|n IH]; intros s H; [reflexivity|].
  destruct s as [|c s]; simpl in *; [lia|]. rewrite IH; [reflexivity | lia].
Qed.

Lemma length_str_drop (n : nat) (s : string) :
  String.length (str_drop n s) = (String.length s - n)%nat.
Proof.
  revert s. induction n as [|n IH]; intros s; [simpl; lia|].
  destruct s as [|c s]; simpl; [reflexivity | apply IH].
Qed.

Lemma str_drop_drop (a b : nat) (s : string) :
  str_drop a (str_drop b s) = str_drop (b + a) s.
Proof.
  revert s. induction b as [|b IH]; intros s; [reflexivity|].
  destruct s as [|c s]; simpl; [destruct a; reflexivity | apply IH].
Qed.

(** X16: [mask_token] shows a token of more than eight characters as its
    first four and its last four characters and hides all the characters
    between them; a non-empty token of at most eight characters is shown in
    full; an empty token and any value that is not a string are shown as
    missing. *)
Theorem X16_mask_token (s : string) :
  (String.length s = 0%nat -> mask_token (PStr s) = MaskMissing)
  /\ ((0 < String.length s <= 8)%nat -> mask_token (PStr s) = MaskWhole s)
  /\ ((8 < String.length s)%nat ->
      exists first hidden last,
        mask_token (PStr s) = MaskEnds first last
        /\ s = first +:+ hidden +:+ last
        /\ String.length first = 4%nat
        /\ String.length last = 4%nat
        /\ String.length hidden = (String.length s - 8)%nat)
  /\ mask_token PNone = MaskMissing
  /\ (forall b, mask_token (PBool b) = MaskMissing)
  /\ (forall z, mask_token (PInt z) = MaskMissing).
Proof.
  split; [|split; [|split; [|repeat split]]].
  - destruct s; [reflexivity | discriminate].
  - intros [Hpos Hle]. unfold mask_token, nonempty.
    destruct s as [|c s]; [simpl in Hpos; lia|]. simpl negb. cbv iota.
    apply Nat.leb_le in Hle. now rewrite Hle.
  - intros Hlen. unfold mask_token, nonempty.
    destruct s as [|c s]; [simpl in Hlen; lia|].
    change (negb (negb (String.eqb (String c s) EmptyString))) with false. cbv iota.
    assert (Hgt : (String.length (String c s) <=? 8)%nat = false)
      by (apply Nat.leb_gt; exact Hlen).
    rewrite Hgt.
    set (t := String c s) in *.
    exists (str_take 4 t), (str_take (String.length t - 8) (str_drop 4 t)),
      (str_drop (String.length t - 4) t).
    split; [reflexivity|]. split; [|split; [|split]].
    + replace (str_drop (String.length t - 4) t)
        with (str_drop (String.length t - 8) (str_drop 4 t)).
      * rewrite <- str_take_drop. apply str_take_drop.
      * rewrite str_drop_drop. f_equal. lia.
    + apply length_str_take. lia.
    + rewrite length_str_drop. lia.
    + apply length_str_take. rewrite length_str_drop. lia.
Qed.

Lemma X16_mask_token_witness :
  exists first hidden last,
    mask_token (PStr "abcdefghijkl") = MaskEnds first last
    /\ "abcdefghijkl" = first +:+ hidden +:+ last
    /\ String.length first = 4%nat
    /\ String.length last = 4%nat
    /\ String.length hidden = (String.length "abcdefghijkl" - 8)%nat.
Proof.
  apply (proj1 (proj2 (proj2 (X16_mask_token "abcdefghijkl")))).
  simpl. lia.
Defined.

(** ** Cycles *)

(** X17: a refresh cycle that fails before its update step has touched
    nothing.  When [refresh_once] raises (the redirect bound, or an
    exception out of [session.get] or [urljoin]), when the response it
    returns has a status of the client or server error class, or when that
    response passes the status check and its body does not parse, the cycle
    raises that very error after between one and six calls of [session.get]
    and nothing else: the store file is as it was and no write was
    attempted. *)
Theorem X17_failed_cycle_writes_nothing (E : env) (s : session) (i : nat)
    (st : store) (tok : pyval) (w : world) (e : exn) :
  (fst (refresh_once E s tok w) = Raise e
   \/ exists resp,
        fst (refresh_once E s tok w) = Ok resp
        /\ ((400 <= status_code resp < 600 /\ e = HTTPError resp)
            \/ (~ 400 <= status_code resp < 600
                /\ json_body resp = None /\ e = JSONDecodeError))) ->
  fst (refresh_cycle E s i st tok w) = Raise e
  /\ disk (snd (refresh_cycle E s i st tok w)) = disk w
  /\ store_writes (emitted w (snd (refresh_cycle E s i st tok w))) = []
  /\ Forall (fun ev => is_http ev = true)
       (emitted w (snd (refresh_cycle E s i st tok w)))
  /\ (1 <= length (emitted w (snd (refresh_cycle E s i st tok w)))
      <= MAX_REDIRECTS + 1)%nat.
Proof.
  intros Hfail.
  assert (Hraise : fst (refresh_cycle E s i st tok w) = Raise e).
  { unfold refresh_cycle, bind.
    destruct (refresh_once E s tok w) as [[resp|e0] w1]; simpl in Hfail.
    - destruct Hfail as [Hf | (resp' & Hok & Hcase)]; [discriminate Hf|].
      injection Hok as <-.
      destruct Hcase as [(Hst & ->) | (Hst & Hbody & ->)].
      + assert (H200 : negb (status_code resp =? 200) = true).
        { apply negb_true_iff, Z.eqb_neq. lia. }
        rewrite H200. unfold raise_for_status.
        assert (Herr : (400 <=? status_code resp) && (status_code resp <? 600) = true).
        { apply andb_true_iff. split; [apply Z.leb_le | apply Z.ltb_lt]; lia. }
        now rewrite Herr.
      + assert (Herr : (400 <=? status_code resp) && (status_code resp <? 600) = false).
        { apply andb_false_iff.
          destruct (Z.leb_spec 400 (status_code resp)); [|now left].
          right. apply Z.ltb_ge. lia. }
        unfold raise_for_status, response_json. rewrite Herr, Hbody.
        destruct (negb (status_code resp =? 200)); reflexivity.
    - destruct Hfail as [Hf | (resp' & Hok & _)]; [|discriminate Hok].
      now injection Hf as ->. }
  split; [exact Hraise|].
  destruct (cycle_emits E s i st tok w) as (reqs & evs & Htr & Hhttp & Hlen & Hevs).
  destruct Hevs as [[-> Hd] | (ts & st' & tok' & _ & _ & Hok)];
    [|rewrite Hok in Hraise; discriminate Hraise].
  rewrite app_nil_r in Htr. rewrite (emitted_app _ _ _ Htr).
  split; [exact Hd|]. split; [apply (http_only reqs Hhttp)|].
  split; [exact Hhttp | exact Hlen].
Qed.

Lemma X17_failed_cycle_writes_nothing_witness :
  let E := Sample.constant_env (Sample.plain 401 None None) in
  let w := Sample.on_disk Sample.one_login in
  let run := refresh_cycle E Sample.the_session 0 Sample.one_login (PStr "R1") w in
  fst run = Raise (HTTPError (Sample.plain 401 None None))
  /\ disk (snd run) = disk w
  /\ store_writes (emitted w (snd run)) = []
  /\ Forall (fun ev => is_http ev = true) (emitted w (snd run))
  /\ (1 <= length (emitted w (snd run)) <= MAX_REDIRECTS + 1)%nat.
Proof.
  intros E w.
  apply (X17_failed_cycle_writes_nothing E Sample.the_session 0 Sample.one_login
           (PStr "R1") w (HTTPError (Sample.plain 401 None None))).
  right. exists (Sample.plain 401 None None).
  split; [reflexivity|]. left. split; [simpl; lia | reflexivity].
Defined.

(** X18: a run with the [requests] driver that completes has gone through
    every requested cycle: it has sent at least one request per cycle and
    at most six. *)
Theorem X18_completed_run_cycles (E : env) (a : args) (w : world)
    (res : store * pyval) :
  fst (main E a w) = Ok res ->
  strip (lower (driver a)) = "requests" ->
  (Z.to_nat (count a) <= length (http_requests (emitted w (snd (main E a w))))
   <= (MAX_REDIRECTS + 1) * Z.to_nat (count a))%nat.
Proof.
  intros Hok Hdrv.
  destruct (main_cases E a w) as [[e He] | (headers & _ & _ & Hm)];
    [rewrite He in Hok; discriminate Hok|].
  rewrite Hm in *. clear Hm.
  destruct (perform_refreshes_cases E (login_id a) (count a) (preset a) (driver a)
              (options_of E a headers) w)
    as [(e & evs & Hp & _) | (st & i & login & Hd & Hf & Hl & Ht & Hcase)];
    [rewrite Hp in Hok; discriminate Hok|].
  destruct Hcase as [(Hnode & _) | (_ & _ & s & _ & Hp)];
    [rewrite Hdrv in Hnode; discriminate Hnode|].
  rewrite Hp in *.
  destruct (cycles_emits E s i (Z.to_nat (count a)) st
              (dict_get login "refreshToken")
              {| disk := disk w; trace := trace w ++ [EvStoreExists; EvStoreRead] |})
    as (evs & Htr & Hh & _ & _ & Hmin).
  simpl in Htr. rewrite (emitted_after _ _ _ _ Htr).
  rewrite http_requests_app. simpl.
  destruct res as [st' tok']. specialize (Hmin st' tok' Hok).
  unfold MAX_REDIRECTS in *. lia.
Qed.

Lemma X18_completed_run_cycles_witness :
  let E := Sample.constant_env
             (Sample.plain 200 None (Some {["refresh_token" := PStr "R2"]})) in
  let w := Sample.on_disk Sample.one_login in
  let a := Sample.with_count 3 Sample.base_args in
  (Z.to_nat (count a) <= length (http_requests (emitted w (snd (main E a w))))
   <= (MAX_REDIRECTS + 1) * Z.to_nat (count a))%nat.
Proof.
  intros E w a.
  apply (X18_completed_run_cycles E a w
           ({| store_updatedAt := Some (PStr "2025-01-01T00:00:00Z");
               store_logins :=
                 Some [<["updatedAt" := PStr "2025-01-01T00:00:00Z"]>
                         (Sample.login_of (PStr "a") (PStr "R2"))] |}, PStr "R2")).
  - vm_compute. reflexivity.
  - reflexivity.
Defined.

Lemma X5_run_budget_witness :
  let E := Sample.constant_env
             (Sample.plain 200 None (Some {["refresh_token" := PStr "R2"]})) in
  let w := Sample.on_disk Sample.one_login in
  (length (store_writes (emitted w (snd (main E Sample.base_args w))))
   <= Z.to_nat (count Sample.base_args))%nat.
Proof.
  intros E w.
  apply (proj2 (proj2 (proj2 (X5_run_budget E Sample.base_args w)))).
  vm_compute. reflexivity.
Defined.

Lemma X12_payload_well_formed_witness :
  connectionClose {| keepAlive := Some false; connectionClose := None |} <> Some false
  /\ (keepAlive {| keepAlive := Some false; connectionClose := None |} <> None
      \/ connectionClose {| keepAlive := Some false; connectionClose := None |}
         = Some true).
Proof.
  apply (proj1 (proj2 (proj2 (X12_payload_well_formed (PStr "R1") 1
                                {| opt_trace_path := None; opt_method := None;
                                   opt_client := None;
                                   opt_keepalive := Some false;
                                   opt_connection_close := false;
                                   opt_tls_min := Some EmptyString;
                                   opt_tls_max := Some "TLSv1.3";
                                   opt_tls_ciphers := None;
                                   opt_headers := None |}))
                  {| cfg_method := None; cfg_tracePath := None; cfg_client := None;
                     cfg_connection := Some {| keepAlive := Some false;
                                               connectionClose := None |};
                     cfg_tls := Some {| minVersion := None;
                                        maxVersion := Some "TLSv1.3";
                                        ciphers := None |};
                     cfg_headers := None |}
                  eq_refl)
           {| keepAlive := Some false; connectionClose := None |} eq_refl).
Defined.

Lemma X13_presets_witness :
  let E := Sample.constant_env (Sample.plain 200 None None) in
  let w := Sample.on_disk Sample.one_login in
  session_headers
    {| session_headers :=
         <["Accept-Encoding" := "gzip, compress, deflate, br"]>
           (<["Connection" := "close"]>
              (<["Accept" := "application/json, text/plain, */*"]>
                 {["User-Agent" := "python-requests/2.32.5"]})) |} !! "User-Agent"
  = Some "python-requests/2.32.5".
Proof.
  intros E w.
  apply (proj2 (proj2 (X13_presets E " Node" w))).
  reflexivity.
Defined.

(** ** What a run writes *)

(** X19: every store that a run hands to [persist_token_store] is the store
    it read at the start with at most the selected login's [refreshToken]
    and [updatedAt] and the store's [updatedAt] changed: the other logins,
    the other keys of the selected login and the number of logins are as
    they were read.  This holds for each write a run attempts, whatever
    happens to the run afterwards. *)
Theorem X19_written_stores_keep_rest (E : env) (a : args) (w : world)
    (st st' : store) :
  disk w = FileJson st ->
  In st' (store_writes (emitted w (snd (main E a w)))) ->
  exists i, find_login st (login_id a) = Ok i /\ keeps_rest i st st'.
Proof.
  intros Hd.
  destruct (main_cases E a w) as [[e He] | (headers & _ & _ & Hm)].
  { rewrite He. simpl. rewrite emitted_refl. intros []. }
  rewrite Hm. clear Hm.
  destruct (perform_refreshes_cases E (login_id a) (count a) (preset a) (driver a)
              (options_of E a headers) w)
    as [(e & evs & Hp & Hevs) | (st0 & i & login & Hd0 & Hf & Hl & Ht & Hdrv)].
  { rewrite Hp. simpl. erewrite emitted_app by reflexivity.
    destruct Hevs as [-> | ->]; intros []. }
  assert (st0 = st) by congruence. subst st0.
  pose proof (loaded_in_sync w st i login Hd Hl) as Hsync.
  destruct Hdrv as [(_ & Hp) | (_ & _ & s & _ & Hp)]; rewrite Hp.
  - destruct (node_driver_written E st i (dict_get login "refreshToken") (count a)
                (options_of E a headers) _ Hsync) as (evs & Htr & Hw).
    simpl in Htr. rewrite (emitted_after _ _ _ _ Htr).
    rewrite store_writes_app. simpl. intros Hin.
    rewrite List.Forall_forall in Hw. exists i. split; [exact Hf | now apply Hw].
  - destruct (cycles_written E s i (Z.to_nat (count a)) st
                (dict_get login "refreshToken") _ st Hsync (keeps_rest_refl i st))
      as (evs & Htr & Hw).
    simpl in Htr. rewrite (emitted_after _ _ _ _ Htr).
    rewrite store_writes_app. simpl. intros Hin.
    rewrite List.Forall_forall in Hw. exists i. split; [exact Hf | now apply Hw].
Qed.

Lemma X19_written_stores_keep_rest_witness :
  let E := Sample.constant_env
             (Sample.plain 200 None (Some {["refresh_token" := PStr "R2"]})) in
  let st' := {| store_updatedAt := Some (PStr "2025-01-01T00:00:00Z");
                store_logins :=
                  Some [<["updatedAt" := PStr "2025-01-01T00:00:00Z"]>
                          (Sample.login_of (PStr "a") (PStr "R2"))] |} in
  exists i, find_login Sample.one_login (login_id Sample.base_args) = Ok i
            /\ keeps_rest i Sample.one_login st'.
Proof.
  intros E st'.
  apply (X19_written_stores_keep_rest E Sample.base_args
           (Sample.on_disk Sample.one_login) Sample.one_login st').
  - reflexivity.
  - vm_compute. left. reflexivity.
Defined.
